(** * geneva-drive: the parametric model of a four-slot Geneva mechanism

    A verification development for [src/geneva_drive/main.assy.py].

    The script computes a handful of dimensions and then drives the external
    CAD library [foundation] through a fixed sequence of calls.  It is
    embedded here in three layers:

    - [PyNum]: the arithmetic the script performs, written once and read
      either in CPython's own numbers (ints and binary64 floats, [pyval]) or
      in the real numbers ([R], the geometric reading);
    - [prog]: the script's effects.  Every interaction with [foundation] is a
      [Call] (or a [Read] of [pen.y]) whose answer is handed to the rest of
      the program, so the library stays a parameter ([library]);
    - [Journal]: a recording library that keeps, for each stateful object, the
      calls made on it, so that what was built can be inspected.  *)

From Stdlib Require Import ZArith List String Bool Lia.
From Stdlib Require Import Reals Lra Permutation.
From Stdlib Require Import PrimFloat SpecFloat FloatOps.
From Stdlib Require QArith Qabs.
Import ListNotations.

Set Implicit Arguments.
Set Warnings "-register-all".
Local Open Scope string_scope.
Local Open Scope list_scope.

(* ------------------------------------------------------------------------- *)
(** ** Numbers *)

(** The arithmetic used by the script: int literals, the float literals [0.5]
    and [0.8], [+], [-], [*], true division [/], unary minus, and [math.sqrt],
    [math.cos], [math.sin], [math.pi]. *)
Class PyNum (T : Type) : Type := {
  of_int : Z -> T;
  lit_0_5 : T;
  lit_0_8 : T;
  py_add : T -> T -> T;
  py_sub : T -> T -> T;
  py_mul : T -> T -> T;
  py_truediv : T -> T -> T;
  py_neg : T -> T;
  math_sqrt : T -> T;
  math_cos : T -> T;
  math_sin : T -> T;
  math_pi : T
}.

Declare Scope py_scope.
Delimit Scope py_scope with py.
Notation "x + y" := (py_add x y) : py_scope.
Notation "x - y" := (py_sub x y) : py_scope.
Notation "x * y" := (py_mul x y) : py_scope.
Notation "x / y" := (py_truediv x y) : py_scope.
Notation "- x" := (py_neg x) : py_scope.
Notation "' z" := (of_int z%Z) (at level 1, z at level 0, format "' z") : py_scope.

(** *** The real-number reading *)

#[export] Instance PyNum_R : PyNum R := {|
  of_int := IZR;
  lit_0_5 := 0.5%R;
  lit_0_8 := 0.8%R;
  py_add := Rplus;
  py_sub := Rminus;
  py_mul := Rmult;
  py_truediv := Rdiv;
  py_neg := Ropp;
  math_sqrt := R_sqrt.sqrt;
  math_cos := cos;
  math_sin := sin;
  math_pi := PI
|}.

(** *** CPython's numbers *)

(** A Python number of the script is an [int] or a [float] (binary64). *)
Inductive num : Type :=
| PyInt (z : Z)
| PyFloat (f : float).

(** The outcome of evaluating an arithmetic expression: a number, or [None]
    when the evaluation raises ([ZeroDivisionError], [ValueError],
    [OverflowError]).  An operand that raised makes the whole expression
    raise. *)
Definition pyval : Type := option num.

(** [float(z)]: the nearest binary64 (ties to even), [OverflowError] when
    that is out of range. *)
Definition float_of_int (z : Z) : option float :=
  match binary_normalize prec emax z 0 false with
  | S754_infinity _ => None
  | sf => Some (SF2Prim sf)
  end.

Definition as_float (v : num) : option float :=
  match v with
  | PyInt z => float_of_int z
  | PyFloat f => Some f
  end.

(** [int op int] stays an [int]; any other mix is computed on floats. *)
Definition py_binop (zop : Z -> Z -> Z) (fop : float -> float -> float)
    (a b : pyval) : pyval :=
  match a, b with
  | Some (PyInt x), Some (PyInt y) => Some (PyInt (zop x y))
  | Some x, Some y =>
      match as_float x, as_float y with
      | Some f, Some g => Some (PyFloat (fop f g))
      | _, _ => None
      end
  | _, _ => None
  end.

(** True division always yields a float and raises on a zero divisor.  (For
    two ints CPython rounds the exact quotient once; below 2^53, which covers
    every int of the script, that is the quotient of the two floats.) *)
Definition py_div (a b : pyval) : pyval :=
  match a, b with
  | Some x, Some y =>
      match as_float x, as_float y with
      | Some f, Some g => if is_zero g then None else Some (PyFloat (f / g)%float)
      | _, _ => None
      end
  | _, _ => None
  end.

Definition py_opp (a : pyval) : pyval :=
  match a with
  | Some (PyInt x) => Some (PyInt (- x))
  | Some (PyFloat f) => Some (PyFloat (- f)%float)
  | None => None
  end.

(** A [math] function: the argument is converted to a float; [dom] is the
    set of floats on which the function does not raise. *)
Definition py_math (dom : float -> bool) (fn : float -> float) (a : pyval) : pyval :=
  match a with
  | Some x =>
      match as_float x with
      | Some f => if dom f then Some (PyFloat (fn f)) else None
      | None => None
      end
  | None => None
  end.

Section CPython.
(** [math.cos] and [math.sin] are the C library's; IEEE 754 does not fix
      their results, so they are parameters of the model. *)
Variables libm_cos libm_sin : float -> float.

Definition PyNum_py : PyNum pyval := {|
    of_int := fun z => Some (PyInt z);
    lit_0_5 := Some (PyFloat 0.5%float);
    lit_0_8 := Some (PyFloat 0x1.999999999999ap-1%float);
    py_add := py_binop Z.add PrimFloat.add;
    py_sub := py_binop Z.sub PrimFloat.sub;
    py_mul := py_binop Z.mul PrimFloat.mul;
    py_truediv := py_div;
    py_neg := py_opp;
    math_sqrt := py_math (fun f => negb (f <? 0)%float) PrimFloat.sqrt;
    math_cos := py_math (fun f => negb (is_infinity f)) libm_cos;
    math_sin := py_math (fun f => negb (is_infinity f)) libm_sin;
    math_pi := Some (PyFloat 0x1.921fb54442d18p+1%float)
  |}.
End CPython.

(* ------------------------------------------------------------------------- *)
(** ** Module constants (lines 19-38) *)

Section Constants.
Context {T : Type} `{PyNum T}.
Local Open Scope py_scope.

Definition BASE_WIDTH : T := '50.
Definition BASE_LENGTH : T := '100.
Definition PIN_DISTANCE : T := BASE_LENGTH * lit_0_5.
Definition PIN_DIAMETER : T := '4.
Definition DISK_DIAMETER : T := '2 * PIN_DISTANCE / math_sqrt '2 + PIN_DIAMETER.
Definition SLIDING_CIRCLE_DIAMETER : T := DISK_DIAMETER * lit_0_8.
Definition BEARING_HEIGHT : T := '6.
Definition BEARING_DIAMETER : T := '19.
Definition BEARING_INNER_DIAMETER : T := '6.
Definition PLATE_THICKNESS : T := '2.

Definition PIN_HEIGHT : T := '8.
Definition LIP_HEIGHT : T := '2.

Definition DISK_TOLERANCE : T := lit_0_5.
Definition BEARING_PLATE_OFFSET : T := '3.

Definition CIRCLES_PART_HEIGHT : T := PLATE_THICKNESS + LIP_HEIGHT + BEARING_PLATE_OFFSET.
Definition CROSS_PART_HEIGHT : T := CIRCLES_PART_HEIGHT + PLATE_THICKNESS.
End Constants.

(* ------------------------------------------------------------------------- *)
(** ** The boundary to [foundation] *)

(** The base class of one of the script's classes, [class X(Part)] or
    [class X(Assembly)]. *)
Inductive base_class : Type := Part | Assembly.

(** How an [Extrusion] is given its extent at the call site. *)
Inductive extent (T : Type) : Type :=
| Height (h : T)              (* Extrusion(shape, h): second positional argument *)
| StartEnd (start end_ : T).  (* Extrusion(shape, start=.., end=..) *)

(** Every way the script reaches into the library; [obj] is the type of the
    library's objects, which the script only ever passes back. *)
Inductive call (T obj : Type) : Type :=
(* instances of the script's classes, and the base-class initialisers *)
| cNew (base : base_class) (cls : string)        (* Cls() *)
| cInit (base : base_class) (self : obj)         (* super().__init__() *)
| cSetAttr (self : obj) (name : string) (v : T)  (* self.name = v *)
(* Part *)
| cXY (self : obj)                               (* self.xy() *)
| cYZ (self : obj)                               (* self.yz() *)
| cPf (self : obj)                               (* self.pf *)
| cGetParallelPlane (pf plane : obj) (d : T)     (* pf.get_parallel_plane(plane, d) *)
| cAddOperation (self op : obj)                  (* self.add_operation(op) *)
| cPaint (self : obj) (color : string)           (* self.paint(color) *)
(* Assembly *)
| cAddComponent (self comp : obj) (tf : option obj)  (* self.add_component(comp[, tf]) *)
(* sketches and shapes *)
| cSketch (plane : obj)                          (* Sketch(plane) *)
| cOrigin (sketch : obj)                         (* sketch.origin *)
| cPencil (sketch : obj)                         (* sketch.pencil *)
| cPoint (sketch : obj) (x y : T)                (* Point(sketch, x, y) *)
| cLine (p1 p2 : obj)                            (* Line(p1, p2) *)
| cCircle (center : obj) (radius : T)            (* Circle(center, radius) *)
| cPolygon (lines : list obj)                    (* Polygon(lines) *)
| cRoundedCornerRectangle (center : obj) (a b r : T)
                           (* RoundedCornerRectangle.from_center_and_sides(center, a, b, r) *)
| cLineTo (pen : obj) (x y : T)                  (* pen.line_to(x, y) *)
| cLineBy (pen : obj) (dx dy : T)                (* pen.line(dx, dy) *)
| cClose (pen : obj)                             (* pen.close() *)
(* operations *)
| cExtrusion (shape : obj) (e : extent T) (cut : option bool)  (* Extrusion(shape, ..[, cut=..]) *)
| cAxis (line : obj)                             (* Axis(line) *)
| cLathe (shape axis : obj)                      (* Lathe(shape, axis) *)
(* transforms *)
| cTFHelper                                      (* TFHelper() *)
| cTranslateX (tf : obj) (v : T)                 (* tf.translate_x(v) *)
| cTranslateZ (tf : obj) (v : T)                 (* tf.translate_z(v) *)
| cGetTf (tf : obj)                              (* tf.get_tf() *)
(* rendering *)
| cShow (x : obj).                               (* show(x) *)

(** The one place where the script uses a number the library hands back. *)
Inductive read (obj : Type) : Type :=
| rPenY (pen : obj).                             (* pen.y *)

Arguments cNew {T obj}.
Arguments cInit {T obj}.
Arguments cXY {T obj}.
Arguments cYZ {T obj}.
Arguments cPf {T obj}.
Arguments cAddOperation {T obj}.
Arguments cPaint {T obj}.
Arguments cAddComponent {T obj}.
Arguments cSketch {T obj}.
Arguments cOrigin {T obj}.
Arguments cPencil {T obj}.
Arguments cLine {T obj}.
Arguments cPolygon {T obj}.
Arguments cClose {T obj}.
Arguments cAxis {T obj}.
Arguments cLathe {T obj}.
Arguments cTFHelper {T obj}.
Arguments cGetTf {T obj}.
Arguments cShow {T obj}.

(** A script: a tree of library calls, each continued with the library's
    answer.  There is no node for raising or catching: the script has no
    [raise], [try], [assert] or [if]. *)
Inductive prog (T obj A : Type) : Type :=
| Ret (a : A)
| Call (c : call T obj) (k : obj -> prog T obj A)
| Read (r : read obj) (k : T -> prog T obj A).

Arguments Ret {T obj A}.

Fixpoint bind {T obj A B} (p : prog T obj A) (f : A -> prog T obj B) : prog T obj B :=
  match p with
  | Ret a => f a
  | Call c k => Call c (fun r => bind (k r) f)
  | Read r k => Read r (fun v => bind (k v) f)
  end.

Declare Scope prog_scope.
Delimit Scope prog_scope with prog.
Notation "x <- p ;; q" := (bind p (fun x => q))
  (at level 61, p at next level, right associativity) : prog_scope.
Notation "p ;; q" := (bind p (fun _ => q))
  (at level 61, right associativity) : prog_scope.

(** [for x in xs: body] *)
Fixpoint for_each {T obj X} (xs : list X) (body : X -> prog T obj unit) : prog T obj unit :=
  match xs with
  | [] => Ret tt
  | x :: xs' => (body x ;; for_each xs' body)%prog
  end.

(** [[f(x) for x in xs]] *)
Fixpoint comprehension {T obj X Y} (xs : list X) (f : X -> prog T obj Y) : prog T obj (list Y) :=
  match xs with
  | [] => Ret []
  | x :: xs' => (y <- f x ;; ys <- comprehension xs' f ;; Ret (y :: ys))%prog
  end.

(** [zip(xs, ys)] stops at the shorter list. *)
Definition zip {X Y} (xs : list X) (ys : list Y) : list (X * Y) := combine xs ys.

(** [range(n)], as ints. *)
Definition range (n : nat) : list Z := map Z.of_nat (seq 0 n).

(** The names imported from [foundation] (lines 3-17), as functions of the
    embedding.  A call made for its effect returns whatever the library
    returns, and the script drops it. *)
Module foundation.
Section Names.
Context {T obj : Type}.
Let M := prog T obj.

Definition perform (c : call T obj) : M obj := Call c Ret.
Definition perform_ (c : call T obj) : M unit := Call c (fun _ => Ret tt).

Definition new (base : base_class) (cls : string) : M obj := perform (cNew base cls).
Definition super_init (base : base_class) (self : obj) : M unit := perform_ (cInit base self).
Definition setattr (self : obj) (name : string) (v : T) : M unit := perform_ (cSetAttr self name v).

Definition xy (self : obj) : M obj := perform (cXY self).
Definition yz (self : obj) : M obj := perform (cYZ self).
Definition pf (self : obj) : M obj := perform (cPf self).
Definition get_parallel_plane (pf plane : obj) (d : T) : M obj :=
    perform (cGetParallelPlane pf plane d).
Definition add_operation (self op : obj) : M unit := perform_ (cAddOperation self op).
Definition paint (self : obj) (color : string) : M unit := perform_ (cPaint self color).
Definition add_component (self comp : obj) (tf : option obj) : M unit :=
    perform_ (cAddComponent self comp tf).

Definition Sketch (plane : obj) : M obj := perform (cSketch plane).
Definition origin (sketch : obj) : M obj := perform (cOrigin sketch).
Definition pencil (sketch : obj) : M obj := perform (cPencil sketch).
Definition Point (sketch : obj) (x y : T) : M obj := perform (cPoint sketch x y).
Definition Line (p1 p2 : obj) : M obj := perform (cLine p1 p2).
Definition Circle (center : obj) (radius : T) : M obj := perform (cCircle center radius).
Definition Polygon (lines : list obj) : M obj := perform (cPolygon lines).
Definition RoundedCornerRectangle_from_center_and_sides (center : obj) (a b r : T) : M obj :=
    perform (cRoundedCornerRectangle center a b r).
Definition line_to (pen : obj) (x y : T) : M unit := perform_ (cLineTo pen x y).
Definition line (pen : obj) (dx dy : T) : M unit := perform_ (cLineBy pen dx dy).
Definition close (pen : obj) : M obj := perform (cClose pen).
Definition pen_y (pen : obj) : M T := Read (rPenY pen) Ret.

Definition Extrusion (shape : obj) (e : extent T) (cut : option bool) : M obj :=
    perform (cExtrusion shape e cut).
Definition Axis (l : obj) : M obj := perform (cAxis l).
Definition Lathe (shape axis : obj) : M obj := perform (cLathe shape axis).

Definition TFHelper : M obj := perform cTFHelper.
Definition translate_x (tf : obj) (v : T) : M unit := perform_ (cTranslateX tf v).
Definition translate_z (tf : obj) (v : T) : M unit := perform_ (cTranslateZ tf v).
Definition get_tf (tf : obj) : M obj := perform (cGetTf tf).

Definition show (x : obj) : M unit := perform_ (cShow x).
End Names.
End foundation.
Import foundation.

(* ------------------------------------------------------------------------- *)
(** ** The classes of the script *)

Local Open Scope py_scope.
Local Open Scope prog_scope.

(** *** [class BallBearing626D(Part)] (lines 41-70) *)
Module BallBearing626D.
Section Class.
Context {T : Type} `{PyNum T} {obj : Type}.
Let M := prog T obj.

Definition OUTER_DIAMETER : T := BEARING_DIAMETER.
Definition INNER_DIAMETER : T := BEARING_INNER_DIAMETER.
Definition HEIGHT : T := BEARING_HEIGHT.

Definition create_outer_cylinder (self : obj) : M unit :=
  plane <- xy self ;;
  sketch <- Sketch plane ;;
  center <- origin sketch ;;
  outer_circle <- Circle center (OUTER_DIAMETER / '2) ;;
  extrusion <- Extrusion outer_circle (Height HEIGHT) None ;;
  add_operation self extrusion.

Definition create_inner_hole (self : obj) : M unit :=
  plane <- xy self ;;
  sketch <- Sketch plane ;;
  center <- origin sketch ;;
  inner_circle <- Circle center (INNER_DIAMETER / '2) ;;
  hole_extrusion <- Extrusion inner_circle (Height HEIGHT) (Some true) ;;
  add_operation self hole_extrusion.

(** No [super().__init__()] here. *)
Definition __init__ (self : obj) : M unit :=
  create_outer_cylinder self ;;
  create_inner_hole self ;;
  paint self "grey".

(** [BallBearing626D()] *)
Definition construct : M obj :=
  self <- new Part "BallBearing626D" ;;
  __init__ self ;;
  Ret self.
End Class.
End BallBearing626D.

(** *** [class RoundedRectangularPlateWithPins(Part)] (lines 73-143) *)
Module RoundedRectangularPlateWithPins.
Section Class.
Context {T : Type} `{PyNum T} {obj : Type}.
Let M := prog T obj.

Definition WIDTH : T := BASE_WIDTH.
Definition LENGTH : T := BASE_LENGTH.
Definition PIN_DIAMETER : T := '6.
Definition LIP_DIAMETER : T := '8.
Definition LIP_HEIGHT : T := LIP_HEIGHT.
Definition PIN_HEIGHT : T := '6.
Definition PIN_DISTANCE : T := PIN_DISTANCE.
Definition FILLET_RADIUS : T := '5.
Definition PLATE_THICKNESS : T := PLATE_THICKNESS.

Definition create_plate (self : obj) : M unit :=
  plane <- xy self ;;
  sketch <- Sketch plane ;;
  center_point <- origin sketch ;;
  plate <- RoundedCornerRectangle_from_center_and_sides
             center_point LENGTH WIDTH FILLET_RADIUS ;;
  extrusion <- Extrusion plate (Height PLATE_THICKNESS) None ;;
  add_operation self extrusion.

Definition create_pins (self : obj) : M unit :=
  plane <- xy self ;;
  sketch <- Sketch plane ;;
  pin1_center <- Point sketch (- PIN_DISTANCE / '2) '0 ;;
  pin2_center <- Point sketch (PIN_DISTANCE / '2) '0 ;;
  (* the first pin lip *)
  circle1 <- Circle pin1_center (LIP_DIAMETER / '2) ;;
  pin1 <- Extrusion circle1 (StartEnd PLATE_THICKNESS CIRCLES_PART_HEIGHT) (Some false) ;;
  add_operation self pin1 ;;
  (* the first pin *)
  pin_circle <- Circle pin1_center (PIN_DIAMETER / '2) ;;
  pin <- Extrusion pin_circle
           (StartEnd (CIRCLES_PART_HEIGHT - BEARING_PLATE_OFFSET)
                     (CIRCLES_PART_HEIGHT + BEARING_HEIGHT - BEARING_PLATE_OFFSET))
           (Some false) ;;
  add_operation self pin ;;
  (* the second pin lip *)
  circle2 <- Circle pin2_center (LIP_DIAMETER / '2) ;;
  pin2 <- Extrusion circle2 (StartEnd PLATE_THICKNESS CROSS_PART_HEIGHT) (Some false) ;;
  add_operation self pin2 ;;
  (* the second pin *)
  pin_circle <- Circle pin2_center (PIN_DIAMETER / '2) ;;
  pin <- Extrusion pin_circle
           (StartEnd (CROSS_PART_HEIGHT - BEARING_PLATE_OFFSET)
                     (CROSS_PART_HEIGHT + BEARING_HEIGHT - BEARING_PLATE_OFFSET))
           (Some false) ;;
  add_operation self pin.

Definition __init__ (self : obj) : M unit :=
  super_init Part self ;;
  create_plate self ;;
  create_pins self ;;
  paint self "plywood".

Definition construct : M obj :=
  self <- new Part "RoundedRectangularPlateWithPins" ;;
  __init__ self ;;
  Ret self.
End Class.
End RoundedRectangularPlateWithPins.

(** *** [class PlateWithBearingsAssembly(Assembly)] (lines 146-169) *)
Module PlateWithBearingsAssembly.
Section Class.
Context {T : Type} `{PyNum T} {obj : Type}.
Let M := prog T obj.

Definition create_plate_with_bearings (self : obj) : M unit :=
  plate <- RoundedRectangularPlateWithPins.construct ;;
  setattr self "LIP_HEIGHT" RoundedRectangularPlateWithPins.LIP_HEIGHT ;;
  add_component self plate None ;;
  (* the first bearing *)
  bearing1 <- BallBearing626D.construct ;;
  bearing1_tf <- TFHelper ;;
  translate_x bearing1_tf (- PIN_DISTANCE / '2) ;;
  translate_z bearing1_tf (CIRCLES_PART_HEIGHT - BEARING_PLATE_OFFSET) ;;
  tf1 <- get_tf bearing1_tf ;;
  add_component self bearing1 (Some tf1) ;;
  (* the second bearing *)
  bearing2 <- BallBearing626D.construct ;;
  bearing2_tf <- TFHelper ;;
  translate_x bearing2_tf (PIN_DISTANCE / '2) ;;
  translate_z bearing2_tf (CROSS_PART_HEIGHT - BEARING_PLATE_OFFSET) ;;
  tf2 <- get_tf bearing2_tf ;;
  add_component self bearing2 (Some tf2).

Definition __init__ (self : obj) : M unit :=
  super_init Assembly self ;;
  create_plate_with_bearings self.

Definition construct : M obj :=
  self <- new Assembly "PlateWithBearingsAssembly" ;;
  __init__ self ;;
  Ret self.
End Class.
End PlateWithBearingsAssembly.

(** *** [class GenevaDiskAndHoles(Part)] (lines 172-242) *)
Module GenevaDiskAndHoles.
Section Class.
Context {T : Type} `{PyNum T} {obj : Type}.
Let M := prog T obj.

Definition PART_THICKNESS : T := '5.
Definition STEP_HEIGHT : T := PART_THICKNESS / '2.
Definition DISK_DIAMETER : T := DISK_DIAMETER.
Definition TOP_CIRCLE_DIAMETER : T := SLIDING_CIRCLE_DIAMETER.
Definition CUT_DIAMETER : T := SLIDING_CIRCLE_DIAMETER.
Definition CUT_OFFSET : T := PIN_DISTANCE.
Definition LIP_HEIGHT : T := LIP_HEIGHT.

Definition create_disk (self : obj) : M unit :=
  plane <- yz self ;;
  sketch <- Sketch plane ;;
  pen <- pencil sketch ;;
  line_to pen '0 (BEARING_HEIGHT - BEARING_PLATE_OFFSET) ;;
  line pen (BEARING_DIAMETER / '2) '0 ;;
  line pen '0 (- BEARING_HEIGHT + BEARING_PLATE_OFFSET) ;;
  y <- pen_y pen ;;
  line_to pen (DISK_DIAMETER / '2) y ;;
  line pen '0 STEP_HEIGHT ;;
  y <- pen_y pen ;;
  line_to pen ((TOP_CIRCLE_DIAMETER - DISK_TOLERANCE) / '2) y ;;
  line pen '0 STEP_HEIGHT ;;
  y <- pen_y pen ;;
  line_to pen '0 y ;;
  shape <- close pen ;;
  o <- origin sketch ;;
  p <- Point sketch '0 '1 ;;
  l <- Line o p ;;
  axis <- Axis l ;;
  lathe <- Lathe shape axis ;;
  add_operation self lathe.

Definition add_circle_cut (self : obj) : M unit :=
  factory <- pf self ;;
  base <- xy self ;;
  plane <- get_parallel_plane factory base STEP_HEIGHT ;;
  cut_sketch <- Sketch plane ;;
  center <- Point cut_sketch '0 CUT_OFFSET ;;
  shape <- Circle center (CUT_DIAMETER / '2) ;;
  cut_extrusion <- Extrusion shape (Height (STEP_HEIGHT + LIP_HEIGHT)) (Some true) ;;
  add_operation self cut_extrusion.

Definition add_turning_pin (self : obj) : M unit :=
  factory <- pf self ;;
  base <- xy self ;;
  plane <- get_parallel_plane factory base ('2 * STEP_HEIGHT) ;;
  sketch <- Sketch plane ;;
  pin_center <- Point sketch (lit_0_8 * (TOP_CIRCLE_DIAMETER / '2)) '0 ;;
  pin_circle <- Circle pin_center (PIN_DIAMETER / '2) ;;
  pin <- Extrusion pin_circle (StartEnd '0 PIN_HEIGHT) (Some false) ;;
  add_operation self pin.

Definition add_sliding_pin (self : obj) : M unit :=
  factory <- pf self ;;
  base <- xy self ;;
  plane <- get_parallel_plane factory base STEP_HEIGHT ;;
  sketch <- Sketch plane ;;
  pin_center <- Point sketch '0 (PIN_DISTANCE / math_sqrt '2) ;;
  pin_circle <- Circle pin_center (PIN_DIAMETER / '2) ;;
  pin <- Extrusion pin_circle (StartEnd '0 PIN_HEIGHT) (Some false) ;;
  add_operation self pin.

Definition __init__ (self : obj) : M unit :=
  super_init Part self ;;
  create_disk self ;;
  add_circle_cut self ;;
  add_turning_pin self ;;
  add_sliding_pin self ;;
  paint self "beige".

Definition construct : M obj :=
  self <- new Part "GenevaDiskAndHoles" ;;
  __init__ self ;;
  Ret self.
End Class.
End GenevaDiskAndHoles.

(** *** [class GenevaDriveCrossSection(Part)] (lines 245-313) *)
Module GenevaDriveCrossSection.
Section Class.
Context {T : Type} `{PyNum T} {obj : Type}.
Let M := prog T obj.

Definition WIDTH : T := SLIDING_CIRCLE_DIAMETER.
Definition CUT_OFFSET : T := PIN_DISTANCE.
Definition CUT_RADIUS : T := SLIDING_CIRCLE_DIAMETER / '2.
Definition SLOT_START_OFFSET : T := PIN_DISTANCE - DISK_DIAMETER / '2.
Definition CENTER_SLOT_OFFSET : T := WIDTH / '2.
Definition SLOT_LENGTH : T := (CENTER_SLOT_OFFSET - SLOT_START_OFFSET) * '2.
Definition SLOT_WIDTH : T := PIN_DIAMETER + '1.
Definition CROSS_WIDTH : T := '1 + BEARING_HEIGHT - BEARING_PLATE_OFFSET.

Definition add_base_circle (self : obj) : M unit :=
  plane <- xy self ;;
  sketch <- Sketch plane ;;
  center <- origin sketch ;;
  base_circle <- Circle center (WIDTH / '2) ;;
  extrusion <- Extrusion base_circle (Height CROSS_WIDTH) None ;;
  add_operation self extrusion.

(** The list [points] of [cut_4_circles] (lines 270-275). *)
Definition cut_4_circles_points : list (T * T) :=
  [ ('0, CUT_OFFSET);
    ('0, - CUT_OFFSET);
    (CUT_OFFSET, '0);
    (- CUT_OFFSET, '0) ].

Definition cut_4_circles (self : obj) : M unit :=
  plane <- xy self ;;
  sketch <- Sketch plane ;;
  for_each cut_4_circles_points (fun p =>
    center <- Point sketch (fst p) (snd p) ;;
    circle <- Circle center CUT_RADIUS ;;
    cut_extrusion <- Extrusion circle (Height CROSS_WIDTH) (Some true) ;;
    add_operation self cut_extrusion).

(** The list [points] of one turn of the loop of [cut_pin_slot], for the
    loop variable [i] (lines 284-297). *)
Definition cut_pin_slot_points (i : Z) : list (T * T) :=
  let orientation := 'i * math_pi / '2 + math_pi / '4 in
  let px := math_cos orientation * CENTER_SLOT_OFFSET in
  let py := math_sin orientation * CENTER_SLOT_OFFSET in
  let dx_len := math_cos orientation * SLOT_LENGTH / '2 in
  let dy_len := math_sin orientation * SLOT_LENGTH / '2 in
  let dx_width := math_sin orientation * SLOT_WIDTH / '2 in
  let dy_width := - math_cos orientation * SLOT_WIDTH / '2 in
  [ (px - dx_len + dx_width, py - dy_len + dy_width);
    (px - dx_len - dx_width, py - dy_len - dy_width);
    (px + dx_len - dx_width, py + dy_len - dy_width);
    (px + dx_len + dx_width, py + dy_len + dy_width) ].

Definition cut_pin_slot (self : obj) : M unit :=
  plane <- xy self ;;
  sketch <- Sketch plane ;;
  for_each (range 4) (fun i =>
    let points := cut_pin_slot_points i in
    lines <- comprehension (zip points (tl points)) (fun pq =>
               a <- Point sketch (fst (fst pq)) (snd (fst pq)) ;;
               b <- Point sketch (fst (snd pq)) (snd (snd pq)) ;;
               Line a b) ;;
    slot_shape <- Polygon lines ;;
    slot_extrusion <- Extrusion slot_shape (Height CROSS_WIDTH) (Some true) ;;
    add_operation self slot_extrusion).

Definition cut_bearing_hole (self : obj) : M unit :=
  plane <- xy self ;;
  sketch <- Sketch plane ;;
  center <- origin sketch ;;
  bearing_hole <- Circle center (BEARING_DIAMETER / '2) ;;
  bearing_extrusion <- Extrusion bearing_hole (Height (CROSS_WIDTH - '1)) (Some true) ;;
  add_operation self bearing_extrusion.

(** No [super().__init__()] here. *)
Definition __init__ (self : obj) : M unit :=
  add_base_circle self ;;
  cut_4_circles self ;;
  cut_pin_slot self ;;
  cut_bearing_hole self ;;
  paint self "brown".

Definition construct : M obj :=
  self <- new Part "GenevaDriveCrossSection" ;;
  __init__ self ;;
  Ret self.
End Class.
End GenevaDriveCrossSection.

(** *** [class GenevaDrive(Assembly)] (lines 316-339) *)
Module GenevaDrive.
Section Class.
Context {T : Type} `{PyNum T} {obj : Type}.
Let M := prog T obj.

Definition add_plate_with_bearings (self : obj) : M unit :=
  plate <- PlateWithBearingsAssembly.construct ;;
  add_component self plate None.

Definition add_geneva_disk_and_holes (self : obj) : M unit :=
  disk <- GenevaDiskAndHoles.construct ;;
  disk_tf <- TFHelper ;;
  translate_z disk_tf CIRCLES_PART_HEIGHT ;;
  translate_x disk_tf (- PIN_DISTANCE / '2) ;;
  tf <- get_tf disk_tf ;;
  add_component self disk (Some tf).

Definition add_geneva_drive_cross_section (self : obj) : M unit :=
  cross_section <- GenevaDriveCrossSection.construct ;;
  cross_section_tf <- TFHelper ;;
  translate_z cross_section_tf CROSS_PART_HEIGHT ;;
  translate_x cross_section_tf (PIN_DISTANCE / '2) ;;
  tf <- get_tf cross_section_tf ;;
  add_component self cross_section (Some tf).

Definition __init__ (self : obj) : M unit :=
  super_init Assembly self ;;
  add_plate_with_bearings self ;;
  add_geneva_disk_and_holes self ;;
  add_geneva_drive_cross_section self.

Definition construct : M obj :=
  self <- new Assembly "GenevaDrive" ;;
  __init__ self ;;
  Ret self.
End Class.
End GenevaDrive.

(** [if __name__ == "__main__": show(GenevaDrive())] (lines 342-343) *)
Definition main {T : Type} `{PyNum T} {obj : Type} : prog T obj unit :=
  drive <- GenevaDrive.construct ;;
  show drive.

(** The names of the [from foundation import (...)] statement, lines 3-17. *)
Definition foundation_imports : list string :=
  [ "show"; "Sketch"; "Part"; "Assembly"; "Extrusion"; "Circle"; "Point"; "Line";
    "Polygon"; "Lathe"; "RoundedCornerRectangle"; "TFHelper"; "Axis" ].

(** The imported name through which a call reaches the library: the class
    that is instantiated or subclassed, or whose instance the method or
    attribute belongs to (the pencil is the sketch's, the plane factory the
    part's). *)
Definition imported_name {T obj} (c : call T obj) : string :=
  match c with
  | cNew Part _ | cInit Part _ => "Part"
  | cNew Assembly _ | cInit Assembly _ => "Assembly"
  | cSetAttr _ _ _ => "Assembly"
  | cXY _ | cYZ _ | cPf _ | cGetParallelPlane _ _ _ | cAddOperation _ _ | cPaint _ _ => "Part"
  | cAddComponent _ _ _ => "Assembly"
  | cSketch _ | cOrigin _ | cPencil _ | cLineTo _ _ _ | cLineBy _ _ _ | cClose _ => "Sketch"
  | cPoint _ _ _ => "Point"
  | cLine _ _ => "Line"
  | cCircle _ _ => "Circle"
  | cPolygon _ => "Polygon"
  | cRoundedCornerRectangle _ _ _ _ => "RoundedCornerRectangle"
  | cExtrusion _ _ _ => "Extrusion"
  | cAxis _ => "Axis"
  | cLathe _ _ => "Lathe"
  | cTFHelper | cTranslateX _ _ | cTranslateZ _ _ | cGetTf _ => "TFHelper"
  | cShow _ => "show"
  end.

(* ------------------------------------------------------------------------- *)
(** ** Running a script against a library *)

(** A library: what each call answers in a library state, or [None] when the
    call raises. *)
Record library (T obj St : Type) : Type := {
  lib_call : call T obj -> St -> option (obj * St);
  lib_read : read obj -> St -> option (T * St)
}.

(** One completed interaction, with the library's answer. *)
Inductive event (T obj : Type) : Type :=
| ECall (c : call T obj) (answer : obj)
| ERead (r : read obj) (answer : T).

(** The interactions that completed, in order, and the outcome: the result
    and final library state, or [None] when a call raised (nothing in the
    script catches it). *)
Fixpoint run {T obj St A} (lib : library T obj St) (p : prog T obj A) (s : St)
    : list (event T obj) * option (A * St) :=
  match p with
  | Ret a => ([], Some (a, s))
  | Call c k =>
      match lib_call lib c s with
      | None => ([], None)
      | Some (r, s') => let (tr, out) := run lib (k r) s' in (ECall c r :: tr, out)
      end
  | Read r k =>
      match lib_read lib r s with
      | None => ([], None)
      | Some (v, s') => let (tr, out) := run lib (k v) s' in (ERead r v :: tr, out)
      end
  end.

Definition trace {T obj St A} (lib : library T obj St) (p : prog T obj A) (s : St) :=
  fst (run lib p s).
Definition outcome {T obj St A} (lib : library T obj St) (p : prog T obj A) (s : St) :=
  snd (run lib p s).

(** A call with its objects forgotten: what was called, with which numbers,
    strings and flags (and how many lines a polygon was given). *)
Definition call_map {T A B} (f : A -> B) (c : call T A) : call T B :=
  match c with
  | cNew b cls => cNew b cls
  | cInit b self => cInit b (f self)
  | cSetAttr self n v => cSetAttr (f self) n v
  | cXY self => cXY (f self)
  | cYZ self => cYZ (f self)
  | cPf self => cPf (f self)
  | cGetParallelPlane p pl d => cGetParallelPlane (f p) (f pl) d
  | cAddOperation self op => cAddOperation (f self) (f op)
  | cPaint self col => cPaint (f self) col
  | cAddComponent self comp tf => cAddComponent (f self) (f comp) (option_map f tf)
  | cSketch pl => cSketch (f pl)
  | cOrigin sk => cOrigin (f sk)
  | cPencil sk => cPencil (f sk)
  | cPoint sk x y => cPoint (f sk) x y
  | cLine p q => cLine (f p) (f q)
  | cCircle c r => cCircle (f c) r
  | cPolygon ls => cPolygon (map f ls)
  | cRoundedCornerRectangle c a b r => cRoundedCornerRectangle (f c) a b r
  | cLineTo pen x y => cLineTo (f pen) x y
  | cLineBy pen x y => cLineBy (f pen) x y
  | cClose pen => cClose (f pen)
  | cExtrusion sh e cut => cExtrusion (f sh) e cut
  | cAxis l => cAxis (f l)
  | cLathe sh ax => cLathe (f sh) (f ax)
  | cTFHelper => cTFHelper
  | cTranslateX tf v => cTranslateX (f tf) v
  | cTranslateZ tf v => cTranslateZ (f tf) v
  | cGetTf tf => cGetTf (f tf)
  | cShow x => cShow (f x)
  end.

Definition erase {T obj} (c : call T obj) : call T unit := call_map (fun _ => tt) c.

(** What a run looks like from outside the library: each call without its
    objects, each read of [pen.y] with the number it gave. *)
Inductive step (T : Type) : Type :=
| SCall (c : call T unit)
| SRead (v : T).

Definition observe {T obj} (e : event T obj) : step T :=
  match e with
  | ECall c _ => SCall (erase c)
  | ERead _ v => SRead v
  end.

(** The numbers [pen.y] answered during a run. *)
Fixpoint reads {T obj} (tr : list (event T obj)) : list T :=
  match tr with
  | [] => []
  | ECall _ _ :: tr' => reads tr'
  | ERead _ v :: tr' => v :: reads tr'
  end.

(** The numeric arguments of a call. *)
Definition numeric_args {T obj} (c : call T obj) : list T :=
  match c with
  | cSetAttr _ _ v => [v]
  | cGetParallelPlane _ _ d => [d]
  | cPoint _ x y => [x; y]
  | cCircle _ r => [r]
  | cRoundedCornerRectangle _ a b r => [a; b; r]
  | cLineTo _ x y => [x; y]
  | cLineBy _ x y => [x; y]
  | cExtrusion _ (Height h) _ => [h]
  | cExtrusion _ (StartEnd s e) _ => [s; e]
  | cTranslateX _ v => [v]
  | cTranslateZ _ v => [v]
  | _ => []
  end.

Definition calls {T obj} (tr : list (event T obj)) : list (call T obj) :=
  flat_map (fun e => match e with ECall c _ => [c] | ERead _ _ => [] end) tr.

(** *** Properties of every run of a script *)

(** [calls_ok P Q p]: whatever the library answers (numbers satisfying [Q]),
    every call [p] makes satisfies [P]. *)
Inductive calls_ok {T obj A} (P : call T obj -> Prop) (Q : T -> Prop)
    : prog T obj A -> Prop :=
| ok_Ret a : calls_ok P Q (Ret a)
| ok_Call c k : P c -> (forall r, calls_ok P Q (k r)) -> calls_ok P Q (Call c k)
| ok_Read r k : (forall v, Q v -> calls_ok P Q (k v)) -> calls_ok P Q (Read r k).

(** [alike R p1 p2]: two scripts, over any two kinds of library objects, make
    the same calls up to the objects, as long as [pen.y] answers the same
    numbers; their results are related by [R]. *)
Inductive alike {T o1 o2 A1 A2} (R : A1 -> A2 -> Prop)
    : prog T o1 A1 -> prog T o2 A2 -> Prop :=
| alike_Ret a1 a2 : R a1 a2 -> alike R (Ret a1) (Ret a2)
| alike_Call c1 c2 k1 k2 :
    erase c1 = erase c2 ->
    (forall r1 r2, alike R (k1 r1) (k2 r2)) ->
    alike R (Call c1 k1) (Call c2 k2)
| alike_Read r1 r2 k1 k2 :
    (forall v, alike R (k1 v) (k2 v)) ->
    alike R (Read r1 k1) (Read r2 k2).

(* ------------------------------------------------------------------------- *)
(** ** The journal: a library that records what it is asked *)

(** The journal computes no geometry.  A constructor or attribute answers
    with the very call that was made ([Made]); an object with state (an
    instance of one of the script's classes, a [TFHelper], a [Sketch] with
    its pencil) is a reference ([Ref]) to the list of calls made on it so far.
    What [pen.y] answers is left open ([pen_y_of]). *)
Module Journal.
Section Journal.
Context {T : Type}.

Inductive sobj : Type :=
| Ref (n : nat)
| Made (c : call T sobj)
| Snapshot (log : list (call T sobj))
| NoValue.

Definition journal : Type := list (call T sobj).
Definition store : Type := list journal.

Variable pen_y_of : journal -> T.

(** The stateful object a call acts on. *)
Definition target (o : sobj) : option nat :=
  match o with
  | Ref n => Some n
  | Made (cPencil (Ref n)) => Some n
  | _ => None
  end.

Definition journal_of (st : store) (o : sobj) : option journal :=
  match target o with
  | Some n => nth_error st n
  | None => None
  end.

Fixpoint append_at (st : store) (n : nat) (c : call T sobj) : option store :=
  match st, n with
  | [], _ => None
  | j :: st', O => Some ((j ++ [c]) :: st')
  | j :: st', S n' => option_map (cons j) (append_at st' n' c)
  end.

(** A call on a stateful object is entered in that object's journal; it
    raises when the object is none. *)
Definition enter (st : store) (o : sobj) (c : call T sobj) : option (sobj * store) :=
  match target o with
  | Some n => option_map (fun st' => (NoValue, st')) (append_at st n c)
  | None => None
  end.

Definition create (st : store) (c : call T sobj) : option (sobj * store) :=
  Some (Ref (List.length st), st ++ [[c]]).

Definition snapshot (st : store) (o : sobj) : option (sobj * store) :=
  option_map (fun j => (Snapshot j, st)) (journal_of st o).

Definition journal_call (c : call T sobj) (st : store) : option (sobj * store) :=
  match c with
  | cNew _ _ | cTFHelper | cSketch _ => create st c
  | cInit _ self | cSetAttr self _ _ | cAddOperation self _ | cPaint self _
  | cAddComponent self _ _ => enter st self c
  | cLineTo pen _ _ | cLineBy pen _ _ => enter st pen c
  | cTranslateX tf _ | cTranslateZ tf _ => enter st tf c
  | cGetTf tf => snapshot st tf
  | cClose pen => snapshot st pen
  | cShow _ => Some (NoValue, st)
  | _ => Some (Made c, st)
  end.

Definition journal_read (r : read sobj) (st : store) : option (T * store) :=
  match r with
  | rPenY pen => option_map (fun j => (pen_y_of j, st)) (journal_of st pen)
  end.

Definition lib : library T sobj store :=
  {| lib_call := journal_call; lib_read := journal_read |}.

(** *** Reading a store *)

Definition calls_on (st : store) (o : sobj) : journal :=
  match journal_of st o with Some j => j | None => [] end.

Definition class_of (st : store) (o : sobj) : option string :=
  match calls_on st o with
  | cNew _ cls :: _ => Some cls
  | _ => None
  end.

(** The operations added to a part, in order. *)
Definition operations (st : store) (o : sobj) : list sobj :=
  flat_map (fun c => match c with cAddOperation _ op => [op] | _ => [] end) (calls_on st o).

(** The translations of a transform, in the order they were applied. *)
Inductive move : Type :=
| along_x (v : T)
| along_z (v : T).

Definition moves (tf : sobj) : list move :=
  match tf with
  | Snapshot log =>
      flat_map (fun c => match c with
                         | cTranslateX _ v => [along_x v]
                         | cTranslateZ _ v => [along_z v]
                         | _ => []
                         end) log
  | _ => []
  end.

(** The components added to an assembly, in order, each with the
    translations of its transform ([None]: added without a transform). *)
Definition components (st : store) (o : sobj) : list (sobj * option (list move)) :=
  flat_map (fun c => match c with
                     | cAddComponent _ comp tf => [(comp, option_map moves tf)]
                     | _ => []
                     end) (calls_on st o).

(** Where a point was put. *)
Inductive place : Type :=
| at_origin                 (* sketch.origin *)
| at_xy (x y : T)           (* Point(sketch, x, y) *)
| elsewhere.

Definition place_of (p : sobj) : place :=
  match p with
  | Made (cOrigin _) => at_origin
  | Made (cPoint _ x y) => at_xy x y
  | _ => elsewhere
  end.

Inductive shape : Type :=
| circle (center : place) (radius : T)
| polygon (lines : list (place * place))
| rounded_rectangle (center : place) (a b r : T)
| path (log : journal)
| other_shape.

Definition line_of (l : sobj) : place * place :=
  match l with
  | Made (cLine p q) => (place_of p, place_of q)
  | _ => (elsewhere, elsewhere)
  end.

Definition shape_of (s : sobj) : shape :=
  match s with
  | Made (cCircle c r) => circle (place_of c) r
  | Made (cPolygon ls) => polygon (map line_of ls)
  | Made (cRoundedCornerRectangle c a b r) => rounded_rectangle (place_of c) a b r
  | Snapshot log => path log
  | _ => other_shape
  end.

Inductive operation : Type :=
| extrusion (s : shape) (e : extent T) (cut : option bool)
| lathe (s : shape)
| other_operation.

Definition operation_of (op : sobj) : operation :=
  match op with
  | Made (cExtrusion s e cut) => extrusion (shape_of s) e cut
  | Made (cLathe s _) => lathe (shape_of s)
  | _ => other_operation
  end.

(** The operations of a part, read back. *)
Definition built (st : store) (o : sobj) : list operation :=
  map operation_of (operations st o).

End Journal.
End Journal.

(** Every operation of the library answers, in every state. *)
Definition total {T obj St} (lib : library T obj St) : Prop :=
  (forall c s, lib_call lib c s <> None) /\ (forall r s, lib_read lib r s <> None).

(** Every number the library hands back satisfies [Q]. *)
Definition answers {T obj St} (lib : library T obj St) (Q : T -> Prop) : Prop :=
  forall r s v s', lib_read lib r s = Some (v, s') -> Q v.

(* ------------------------------------------------------------------------- *)
(** ** What the script builds *)

(** An object together with the store it lives in. *)
Definition built_object (T : Type) : Type := (@Journal.sobj T * @Journal.store T)%type.

Section Built.
Context {T : Type} {N : PyNum T}.
Variable pen_y_of : @Journal.journal T -> T.

(** The object a constructor returns when it is run against the journal,
    starting from an empty store. *)
Definition build (p : prog T Journal.sobj Journal.sobj) : built_object T :=
  match outcome (Journal.lib pen_y_of) p [] with
  | Some r => r
  | None => (Journal.NoValue, [])
  end.

Definition the_class (b : built_object T) : option string :=
  Journal.class_of (snd b) (fst b).

Definition the_operations (b : built_object T) : list Journal.operation :=
  Journal.built (snd b) (fst b).

(** The transforms of the components of an assembly, in order. *)
Definition the_transforms (b : built_object T) : list (option (list Journal.move)) :=
  map snd (Journal.components (snd b) (fst b)).

(** The [i]-th component added to an assembly. *)
Definition component (b : built_object T) (i : nat) : built_object T :=
  (nth i (map fst (Journal.components (snd b) (fst b))) Journal.NoValue, snd b).

(** The [i]-th operation added to a part. *)
Definition operation_at (b : built_object T) (i : nat) : Journal.operation :=
  nth i (the_operations b) Journal.other_operation.

(** The centres of the circles a part extrudes, in order. *)
Definition circle_centers (ops : list (@Journal.operation T)) : list Journal.place :=
  flat_map (fun op => match op with
                      | Journal.extrusion (Journal.circle c _) _ _ => [c]
                      | _ => []
                      end) ops.

(** The radii of the circles a part extrudes, in order. *)
Definition circle_radii (ops : list (@Journal.operation T)) : list T :=
  flat_map (fun op => match op with
                      | Journal.extrusion (Journal.circle _ r) _ _ => [r]
                      | _ => []
                      end) ops.

(** The [start] and [end] an extrusion was given. *)
Definition start_end (op : @Journal.operation T) : option (T * T) :=
  match op with
  | Journal.extrusion _ (StartEnd s e) _ => Some (s, e)
  | _ => None
  end.

(** The circles a part cuts away (extrusions with [cut=True]): centre and
    radius. *)
Definition circle_cuts (ops : list (@Journal.operation T)) : list (Journal.place * T) :=
  flat_map (fun op => match op with
                      | Journal.extrusion (Journal.circle c r) _ (Some true) => [(c, r)]
                      | _ => []
                      end) ops.

(** The polygons a part cuts away, each as the list of its lines. *)
Definition polygon_cuts (ops : list (@Journal.operation T))
    : list (list (Journal.place * Journal.place)) :=
  flat_map (fun op => match op with
                      | Journal.extrusion (Journal.polygon ls) _ (Some true) => [ls]
                      | _ => []
                      end) ops.

(** The points a chain of lines goes through. *)
Definition vertices (ls : list (@Journal.place T * @Journal.place T)) : list Journal.place :=
  match ls with
  | [] => []
  | (p, _) :: _ => p :: map snd ls
  end.

Definition at_point (p : T * T) : Journal.place := Journal.at_xy (fst p) (snd p).

(** The [x] arguments of the [line_to] calls of a lathed profile. *)
Definition line_to_xs (op : @Journal.operation T) : list T :=
  match op with
  | Journal.lathe (Journal.path log) =>
      flat_map (fun c => match c with cLineTo _ x _ => [x] | _ => [] end) log
  | _ => []
  end.

(** Geometric reading of a placement: the origin of a sketch is (0, 0), and a
    translation along x adds to the x coordinate. *)
Definition x_of (p : @Journal.place T) : option T :=
  match p with
  | Journal.at_origin => Some ('0)%py
  | Journal.at_xy x _ => Some x
  | Journal.elsewhere => None
  end.

Definition shift_x (ms : list (@Journal.move T)) (x : T) : T :=
  fold_left (fun acc m => match m with
                          | Journal.along_x v => (acc + v)%py
                          | Journal.along_z _ => acc
                          end) ms x.

(** The x coordinate, in the assembly, of a point of a component placed with
    transform [tf]. *)
Definition x_in_assembly (tf : option (list (@Journal.move T))) (p : Journal.place) : option T :=
  match tf with
  | Some ms => option_map (shift_x ms) (x_of p)
  | None => x_of p
  end.

Definition z_moves (tf : option (list (@Journal.move T))) : list T :=
  match tf with
  | Some ms => flat_map (fun m => match m with
                                  | Journal.along_z v => [v]
                                  | Journal.along_x _ => []
                                  end) ms
  | None => []
  end.
End Built.

(** The mean of a list of points of the plane. *)
Definition centroid (pts : list (R * R)) : R * R :=
  (fold_right Rplus 0%R (map fst pts) / INR (List.length pts),
   fold_right Rplus 0%R (map snd pts) / INR (List.length pts))%R.

(** The primitives that section 6 of the specification lists as the external
    interface (its transform helper is [TFHelper]). *)
Definition spec_external_interface : list string :=
  [ "Sketch"; "Point"; "Line"; "Circle"; "Polygon"; "Extrusion"; "Lathe"; "Axis";
    "Part"; "Assembly"; "TFHelper"; "show" ].

(** The script consumes only the names of [names]: its import statement
    names nothing else, and no call it can make goes through another name. *)
Definition consumes_only (names : list string) : Prop :=
  incl foundation_imports names /\
  forall T (N : PyNum T) obj,
    calls_ok (fun c => In (imported_name c) names) (fun _ => True) (@main T N obj).

(** A number of CPython, as opposed to an evaluation that raised. *)
Definition defined (v : pyval) : Prop := v <> None.

(** A library that computes nothing: each call answers with a fresh handle,
    [pen.y] with a fixed number. *)
Definition fresh_handles {T : Type} (y : T) : library T nat nat :=
  {| lib_call := fun _ n => Some (n, S n);
     lib_read := fun _ n => Some (y, n) |}.

(** One method run on a fresh instance of a part class: [self = Cls.__new__(Cls);
    self.method()]. *)
Definition on_new_part {T obj} (cls : string) (method : obj -> prog T obj unit)
    : prog T obj obj :=
  (self <- new Part cls ;; method self ;; Ret self)%prog.

(** A point or an x translation of the plate assembly is put at one of the
    two pin positions. *)
Definition at_a_pin {T} {N : PyNum T} {obj} (c : call T obj) : Prop :=
  match c with
  | cPoint _ x y => (x = (- PIN_DISTANCE / '2)%py \/ x = (PIN_DISTANCE / '2)%py) /\ y = ('0)%py
  | cTranslateX _ v => v = (- PIN_DISTANCE / '2)%py \/ v = (PIN_DISTANCE / '2)%py
  | _ => True
  end.

(** The orientation of the [i]-th slot, over the reals. *)
Definition slot_orientation (i : Z) : R := (IZR i * PI / 2 + PI / 4)%R.

(* ------------------------------------------------------------------------- *)
(** ** Further readings of a run *)

(** The Python name of what a call does to its object. *)
Definition method_name {T obj} (c : call T obj) : string :=
  match c with
  | cNew _ _ => "__new__"
  | cInit _ _ => "__init__"
  | cSetAttr _ _ _ => "__setattr__"
  | cXY _ => "xy"
  | cYZ _ => "yz"
  | cPf _ => "pf"
  | cGetParallelPlane _ _ _ => "get_parallel_plane"
  | cAddOperation _ _ => "add_operation"
  | cPaint _ _ => "paint"
  | cAddComponent _ _ _ => "add_component"
  | cSketch _ => "Sketch"
  | cOrigin _ => "origin"
  | cPencil _ => "pencil"
  | cPoint _ _ _ => "Point"
  | cLine _ _ => "Line"
  | cCircle _ _ => "Circle"
  | cPolygon _ => "Polygon"
  | cRoundedCornerRectangle _ _ _ _ => "from_center_and_sides"
  | cLineTo _ _ _ => "line_to"
  | cLineBy _ _ _ => "line"
  | cClose _ => "close"
  | cExtrusion _ _ _ => "Extrusion"
  | cAxis _ => "Axis"
  | cLathe _ _ => "Lathe"
  | cTFHelper => "TFHelper"
  | cTranslateX _ _ => "translate_x"
  | cTranslateZ _ _ => "translate_z"
  | cGetTf _ => "get_tf"
  | cShow _ => "show"
  end.

(** The methods called on a recorded object, in order. *)
Definition methods_called {T} (b : built_object T) : list string :=
  map (@method_name T _) (Journal.calls_on (snd b) (fst b)).

(** The colours a recorded object was painted with, in order. *)
Definition paints {T} (b : built_object T) : list string :=
  flat_map (fun c => match c with cPaint _ col => [col] | _ => [] end)
           (Journal.calls_on (snd b) (fst b)).

(** The height an extrusion was given as its second positional argument. *)
Definition extrusion_height {T} (op : @Journal.operation T) : option T :=
  match op with
  | Journal.extrusion _ (Height h) _ => Some h
  | _ => None
  end.

(** The plane a sketch was made on: the part's [xy()] or [yz()], or the
    plane [get_parallel_plane(self.xy(), d)]. *)
Inductive sketch_plane (T : Type) : Type :=
| on_xy
| on_yz
| above_xy (d : T)
| other_plane.

Arguments on_xy {T}.
Arguments on_yz {T}.
Arguments other_plane {T}.

Definition plane_view {T} (plane : @Journal.sobj T) : sketch_plane T :=
  match plane with
  | Journal.Made (cXY _) => on_xy
  | Journal.Made (cYZ _) => on_yz
  | Journal.Made (cGetParallelPlane _ (Journal.Made (cXY _)) d) => above_xy d
  | _ => other_plane
  end.

(** The sketch a point belongs to. *)
Definition sketch_of_point {T} (p : @Journal.sobj T) : @Journal.sobj T :=
  match p with
  | Journal.Made (cOrigin sk) => sk
  | Journal.Made (cPoint sk _ _) => sk
  | _ => Journal.NoValue
  end.

(** The sketch a shape was drawn in: that of the centre of a circle or of a
    rounded rectangle, that of the first point of a polygon. *)
Definition sketch_of_shape {T} (sh : @Journal.sobj T) : @Journal.sobj T :=
  match sh with
  | Journal.Made (cCircle c _) => sketch_of_point c
  | Journal.Made (cRoundedCornerRectangle c _ _ _) => sketch_of_point c
  | Journal.Made (cPolygon (Journal.Made (cLine p _) :: _)) => sketch_of_point p
  | _ => Journal.NoValue
  end.

(** The plane of the sketch of an operation; a lathed profile carries the
    journal of its sketch. *)
Definition plane_of_operation {T} (st : @Journal.store T) (op : @Journal.sobj T)
    : sketch_plane T :=
  match op with
  | Journal.Made (cExtrusion sh _ _) =>
      match Journal.calls_on st (sketch_of_shape sh) with
      | cSketch plane :: _ => plane_view plane
      | _ => other_plane
      end
  | Journal.Made (cLathe (Journal.Snapshot (cSketch plane :: _)) _) => plane_view plane
  | _ => other_plane
  end.

(** The planes of the sketches of the operations of a part, in order. *)
Definition the_planes {T} (b : built_object T) : list (sketch_plane T) :=
  map (plane_of_operation (snd b)) (Journal.operations (snd b) (fst b)).

(** A move of the pencil: [pen.line_to(x, y)] or [pen.line(dx, dy)]. *)
Inductive pen_move (T : Type) : Type :=
| pen_to (x y : T)
| pen_by (dx dy : T).

(** The pencil moves of a lathed profile, in order. *)
Definition pen_moves {T} (op : @Journal.operation T) : list (pen_move T) :=
  match op with
  | Journal.lathe (Journal.path log) =>
      flat_map (fun c => match c with
                         | cLineTo _ x y => [pen_to x y]
                         | cLineBy _ dx dy => [pen_by dx dy]
                         | _ => []
                         end) log
  | _ => []
  end.

(** The handles of the operations a run created ([Extrusion], [Lathe]), of
    those it added to a part, of the instances it created and of those it
    added to an assembly, each in order. *)
Definition created_operations {T obj} (tr : list (event T obj)) : list obj :=
  flat_map (fun e => match e with
                     | ECall (cExtrusion _ _ _) r | ECall (cLathe _ _) r => [r]
                     | _ => []
                     end) tr.

Definition added_operations {T obj} (tr : list (event T obj)) : list obj :=
  flat_map (fun e => match e with
                     | ECall (cAddOperation _ op) _ => [op]
                     | _ => []
                     end) tr.

Definition created_instances {T obj} (tr : list (event T obj)) : list obj :=
  flat_map (fun e => match e with
                     | ECall (cNew _ _) r => [r]
                     | _ => []
                     end) tr.

Definition added_components {T obj} (tr : list (event T obj)) : list obj :=
  flat_map (fun e => match e with
                     | ECall (cAddComponent _ comp _) _ => [comp]
                     | _ => []
                     end) tr.

(** In a run, every number read from [pen.y] is the [y] of the call that
    follows, a [line_to] (or the run stopped right after the read). *)
Fixpoint reads_fed_to_line_to {T obj} (tr : list (event T obj)) : Prop :=
  match tr with
  | [] => True
  | ECall _ _ :: rest => reads_fed_to_line_to rest
  | ERead _ v :: rest =>
      match rest with
      | [] => True
      | ECall (cLineTo _ _ y) _ :: _ => y = v
      | _ => False
      end /\ reads_fed_to_line_to rest
  end.

(** The same, of a script: after a read of [pen.y] the script calls
    [line_to] with the number read as [y]. *)
Inductive feeds_line_to {T obj A} : prog T obj A -> Prop :=
| feeds_Ret a : feeds_line_to (Ret a)
| feeds_Call c k : (forall r, feeds_line_to (k r)) -> feeds_line_to (Call c k)
| feeds_Read r k pen x k' :
    (forall v, k v = Call (cLineTo (pen v) (x v) v) (k' v)) ->
    (forall v r', feeds_line_to (k' v r')) ->
    feeds_line_to (Read r k).

(** [reads_pen_y n p]: whatever the library answers, the script [p] reads
    [pen.y] [n] times before it returns. *)
Inductive reads_pen_y {T obj A} : nat -> prog T obj A -> Prop :=
| reads_Ret a : reads_pen_y 0 (Ret a)
| reads_Call n c k : (forall r, reads_pen_y n (k r)) -> reads_pen_y n (Call c k)
| reads_Read n r k : (forall v, reads_pen_y n (k v)) -> reads_pen_y (S n) (Read r k).

(** *** The slots in binary64 *)

(** A function given by a table of arguments and results ([nan] elsewhere). *)
Definition tabulated (table : list (float * float)) (x : float) : float :=
  match find (fun row => (fst row =? x)%float) table with
  | Some row => snd row
  | None => nan
  end.

(** [math.cos] and [math.sin] at the four orientations the script computes,
    [i * math.pi / 2 + math.pi / 4] for i in 0..3: the cosine and sine of
    each binary64 argument, correctly rounded to binary64, which is what
    CPython returns for them. *)
Definition cos_table : list (float * float) :=
  [ (0x1.921fb54442d18p-1, 0x1.6a09e667f3bcdp-1);
    (0x1.2d97c7f3321d2p+1, -0x1.6a09e667f3bccp-1);
    (0x1.f6a7a2955385ep+1, -0x1.6a09e667f3bcep-1);
    (0x1.5fdbbe9bba775p+2, 0x1.6a09e667f3bcbp-1) ]%float.

Definition sin_table : list (float * float) :=
  [ (0x1.921fb54442d18p-1, 0x1.6a09e667f3bccp-1);
    (0x1.2d97c7f3321d2p+1, 0x1.6a09e667f3bcdp-1);
    (0x1.f6a7a2955385ep+1, -0x1.6a09e667f3bccp-1);
    (0x1.5fdbbe9bba775p+2, -0x1.6a09e667f3bcep-1) ]%float.

(** CPython's numbers with these cosines and sines. *)
Definition PyNum_binary64 : PyNum pyval :=
  PyNum_py (tabulated cos_table) (tabulated sin_table).

(** The orientation of the [i]-th slot as the script computes it (line 284). *)
Definition orientation_binary64 (i : Z) : pyval :=
  let N := PyNum_binary64 in ('i * math_pi / '2 + math_pi / '4)%py.

(** The rational number a finite binary64 stands for. *)
Definition exact (f : float) : option QArith_base.Q :=
  match Prim2SF f with
  | S754_zero _ => Some (QArith_base.Qmake 0 1)
  | S754_finite s m e =>
      Some (QArith_base.Qmult (QArith_base.Qmake (if s then Z.neg m else Z.pos m) 1)
                              (QArith_base.Qpower (QArith_base.Qmake 2 1) e))
  | _ => None
  end.

Definition exact_value (v : pyval) : option QArith_base.Q :=
  match v with
  | Some (PyInt z) => Some (QArith_base.Qmake z 1)
  | Some (PyFloat f) => exact f
  | None => None
  end.

Definition exact_point (p : pyval * pyval) : option (QArith_base.Q * QArith_base.Q) :=
  match exact_value (fst p), exact_value (snd p) with
  | Some x, Some y => Some (x, y)
  | _, _ => None
  end.

Fixpoint exact_points (ps : list (pyval * pyval))
    : option (list (QArith_base.Q * QArith_base.Q)) :=
  match ps with
  | [] => Some []
  | p :: ps' =>
      match exact_point p, exact_points ps' with
      | Some q, Some qs => Some (q :: qs)
      | _, _ => None
      end
  end.

(** The mean of a list of points with rational coordinates. *)
Definition centroid_Q (pts : list (QArith_base.Q * QArith_base.Q))
    : QArith_base.Q * QArith_base.Q :=
  let n := QArith_base.Qmake (Z.of_nat (List.length pts)) 1 in
  (QArith_base.Qdiv (fold_right QArith_base.Qplus (QArith_base.Qmake 0 1) (map fst pts)) n,
   QArith_base.Qdiv (fold_right QArith_base.Qplus (QArith_base.Qmake 0 1) (map snd pts)) n).

(** How far the centre of the [i]-th slot, as the script computes its points
    in binary64, is from the circle of radius CENTER_SLOT_OFFSET: with (x, y)
    the mean of the four points and c the binary64 CENTER_SLOT_OFFSET, the
    relative error (x^2 + y^2 - c^2) / c^2, computed exactly. *)
Definition slot_center_error (i : Z) : option QArith_base.Q :=
  match exact_points (@GenevaDriveCrossSection.cut_pin_slot_points pyval PyNum_binary64 i),
        exact_value (@GenevaDriveCrossSection.CENTER_SLOT_OFFSET pyval PyNum_binary64) with
  | Some pts, Some c =>
      let g := centroid_Q pts in
      Some (QArith_base.Qdiv
              (QArith_base.Qminus
                 (QArith_base.Qplus (QArith_base.Qmult (fst g) (fst g))
                                    (QArith_base.Qmult (snd g) (snd g)))
                 (QArith_base.Qmult c c))
              (QArith_base.Qmult c c))
  | _, _ => None
  end.

(** *** Runs up to what [pen.y] answered *)

(** What a run looks like from outside when the numbers [pen.y] gave are
    left out: a read shows only that it happened, and the [line_to] that
    follows a read shows its [x] but not its [y]. *)
Inductive outline_step (T : Type) : Type :=
| OCall (c : call T unit)
| ORead
| OLineTo (x : T).

Arguments ORead {T}.

Fixpoint outline_from {T obj} (after_read : bool) (tr : list (event T obj))
    : list (outline_step T) :=
  match tr with
  | [] => []
  | ERead _ _ :: rest => ORead :: outline_from true rest
  | ECall c _ :: rest =>
      match after_read, c with
      | true, cLineTo _ x _ => OLineTo x
      | _, _ => OCall (erase c)
      end :: outline_from false rest
  end.

Definition outline {T obj} (tr : list (event T obj)) : list (outline_step T) :=
  outline_from false tr.

(** Two scripts make the same calls up to the objects and up to what
    [pen.y] answers: after a read each calls [line_to] with the same [x] and
    with the number it read as [y], and goes on alike whatever was read. *)
Inductive alike_up_to_pen_y {T o1 o2 A1 A2} : prog T o1 A1 -> prog T o2 A2 -> Prop :=
| up_Ret a1 a2 : alike_up_to_pen_y (Ret a1) (Ret a2)
| up_Call c1 c2 k1 k2 :
    erase c1 = erase c2 ->
    (forall r1 r2, alike_up_to_pen_y (k1 r1) (k2 r2)) ->
    alike_up_to_pen_y (Call c1 k1) (Call c2 k2)
| up_Read r1 r2 k1 k2 x pen1 pen2 k1' k2' :
    (forall v, k1 v = Call (cLineTo (pen1 v) x v) (k1' v)) ->
    (forall v, k2 v = Call (cLineTo (pen2 v) x v) (k2' v)) ->
    (forall v1 v2 a b, alike_up_to_pen_y (k1' v1 a) (k2' v2 b)) ->
    alike_up_to_pen_y (Read r1 k1) (Read r2 k2).

(** A library all of whose operations answer, with a [pen.y] that depends
    on the library's state: each call answers with a fresh handle, and
    [pen.y] with the number of calls made so far. *)
Definition counting_pen : library pyval nat nat :=
  {| lib_call := fun _ n => Some (n, S n);
     lib_read := fun _ n => Some (Some (PyInt (Z.of_nat n)), n) |}.

(** Points of the plane, over the reals. *)
Definition quarter_turn (p : R * R) : R * R := (- snd p, fst p)%R.

Definition vec (p q : R * R) : R * R := (fst q - fst p, snd q - snd p)%R.

Definition dot (u v : R * R) : R := (fst u * fst v + snd u * snd v)%R.

Definition sq_dist (p q : R * R) : R := dot (vec p q) (vec p q).

(* ------------------------------------------------------------------------- *)
(** ** Facts about every script and every library *)

Section Runs.
Context {T obj St : Type} (lib : library T obj St).

Lemma run_Call A c (k : obj -> prog T obj A) s r s' :
  lib_call lib c s = Some (r, s') ->
  run lib (Call c k) s = (ECall c r :: trace lib (k r) s', outcome lib (k r) s').
Proof.
  intros E. unfold trace, outcome. simpl. rewrite E.
  destruct (run lib (k r) s'); reflexivity.
Qed.

Lemma run_Read A r (k : T -> prog T obj A) s v s' :
  lib_read lib r s = Some (v, s') ->
  run lib (Read r k) s = (ERead r v :: trace lib (k v) s', outcome lib (k v) s').
Proof.
  intros E. unfold trace, outcome. simpl. rewrite E.
  destruct (run lib (k v) s'); reflexivity.
Qed.

(** A script run against a total library returns. *)
Lemma run_total A (p : prog T obj A) :
  total lib -> forall s, outcome lib p s <> None.
Proof.
  intros [Hc Hr]. induction p as [a | c k IH | r k IH]; intros s.
  - discriminate.
  - destruct (lib_call lib c s) as [[x s'] |] eqn:E; [| elim (Hc c s E)].
    unfold outcome. rewrite (run_Call _ k _ E). apply IH.
  - destruct (lib_read lib r s) as [[v s'] |] eqn:E; [| elim (Hr r s E)].
    unfold outcome. rewrite (run_Read _ k _ E). apply IH.
Qed.

(** A run that does not return was stopped by the library: one of its
    operations raised. *)
Lemma failure_is_in_the_library A (p : prog T obj A) :
  forall s, outcome lib p s = None ->
  exists s', (exists c, lib_call lib c s' = None) \/ (exists r, lib_read lib r s' = None).
Proof.
  induction p as [a | c k IH | r k IH]; intros s.
  - discriminate.
  - destruct (lib_call lib c s) as [[x s'] |] eqn:E.
    + unfold outcome. rewrite (run_Call _ k _ E). apply IH.
    + intros _. exists s. left. exists c. exact E.
  - destruct (lib_read lib r s) as [[v s'] |] eqn:E.
    + unfold outcome. rewrite (run_Read _ k _ E). apply IH.
    + intros _. exists s. right. exists r. exact E.
Qed.

(** What holds of every call a script can make holds of the calls of each
    of its runs. *)
Lemma run_calls_ok A (P : call T obj -> Prop) (Q : T -> Prop) (p : prog T obj A) :
  calls_ok P Q p -> answers lib Q -> forall s, Forall P (calls (trace lib p s)).
Proof.
  intros Hp HQ. induction Hp as [a | c k Hc _ IH | r k _ IH]; intros s.
  - constructor.
  - unfold trace. destruct (lib_call lib c s) as [[x s'] |] eqn:E.
    + rewrite (run_Call _ k _ E). simpl. constructor; [exact Hc | apply IH].
    + simpl. rewrite E. constructor.
  - unfold trace. destruct (lib_read lib r s) as [[v s'] |] eqn:E.
    + rewrite (run_Read _ k _ E). simpl. apply IH. exact (HQ _ _ _ _ E).
    + simpl. rewrite E. constructor.
Qed.
End Runs.

Lemma calls_ok_bind T obj A B (P : call T obj -> Prop) (Q : T -> Prop)
    (p : prog T obj A) (f : A -> prog T obj B) :
  calls_ok P Q p -> (forall a, calls_ok P Q (f a)) -> calls_ok P Q (bind p f).
Proof.
  intros Hp Hf. induction Hp; simpl.
  - apply Hf.
  - constructor; auto.
  - constructor; auto.
Qed.

Lemma alike_bind T o1 o2 A1 A2 B1 B2 (R : A1 -> A2 -> Prop) (R' : B1 -> B2 -> Prop)
    (p1 : prog T o1 A1) (p2 : prog T o2 A2) f1 f2 :
  alike R p1 p2 ->
  (forall a1 a2, R a1 a2 -> alike R' (f1 a1) (f2 a2)) ->
  alike R' (bind p1 f1) (bind p2 f2).
Proof.
  intros Hp Hf. induction Hp; simpl.
  - apply Hf. assumption.
  - constructor; auto.
  - constructor; auto.
Qed.

(** Two runs of alike scripts, against any two libraries in any two states:
    if both return and [pen.y] answered the same numbers, they look the same
    from outside. *)
Lemma alike_runs T o1 o2 A1 A2 St1 St2 (R : A1 -> A2 -> Prop)
    (lib1 : library T o1 St1) (lib2 : library T o2 St2)
    (p1 : prog T o1 A1) (p2 : prog T o2 A2) :
  alike R p1 p2 ->
  forall s1 s2,
    outcome lib1 p1 s1 <> None ->
    outcome lib2 p2 s2 <> None ->
    reads (trace lib1 p1 s1) = reads (trace lib2 p2 s2) ->
    map observe (trace lib1 p1 s1) = map observe (trace lib2 p2 s2).
Proof.
  intros Hp. induction Hp as [a1 a2 _ | c1 c2 k1 k2 Hc _ IH | r1 r2 k1 k2 _ IH];
    intros s1 s2.
  - reflexivity.
  - unfold outcome, trace.
    destruct (lib_call lib1 c1 s1) as [[x1 t1] |] eqn:E1;
      [| simpl; rewrite E1; intros N; elim N; reflexivity].
    destruct (lib_call lib2 c2 s2) as [[x2 t2] |] eqn:E2;
      [| simpl; rewrite E2; intros _ N; elim N; reflexivity].
    rewrite (run_Call _ _ k1 _ E1), (run_Call _ _ k2 _ E2). simpl.
    intros N1 N2 Hr. rewrite Hc. f_equal. apply IH; assumption.
  - unfold outcome, trace.
    destruct (lib_read lib1 r1 s1) as [[v1 t1] |] eqn:E1;
      [| simpl; rewrite E1; intros N; elim N; reflexivity].
    destruct (lib_read lib2 r2 s2) as [[v2 t2] |] eqn:E2;
      [| simpl; rewrite E2; intros _ N; elim N; reflexivity].
    rewrite (run_Read _ _ k1 _ E1), (run_Read _ _ k2 _ E2). simpl.
    intros N1 N2 Hr. injection Hr as Hv Hr. subst v2. f_equal. apply IH; assumption.
Qed.

(** One step of a proof that two scripts are [alike]. *)
Ltac alike_step :=
  first [ apply alike_Ret; exact I
        | apply alike_Call; [reflexivity | intros ? ?]
        | apply alike_Read; intros ? ].

(* ------------------------------------------------------------------------- *)
(** ** The dimensions *)

(** Unfolds the dimensions of the script in the real-number reading. *)
Ltac in_R :=
  cbv [PIN_DISTANCE BASE_LENGTH BASE_WIDTH PIN_DIAMETER DISK_DIAMETER
       SLIDING_CIRCLE_DIAMETER BEARING_HEIGHT BEARING_DIAMETER BEARING_INNER_DIAMETER
       PLATE_THICKNESS PIN_HEIGHT LIP_HEIGHT DISK_TOLERANCE BEARING_PLATE_OFFSET
       CIRCLES_PART_HEIGHT CROSS_PART_HEIGHT
       BallBearing626D.OUTER_DIAMETER BallBearing626D.INNER_DIAMETER BallBearing626D.HEIGHT
       RoundedRectangularPlateWithPins.PIN_DIAMETER
       RoundedRectangularPlateWithPins.PIN_DISTANCE
       GenevaDriveCrossSection.WIDTH GenevaDriveCrossSection.CUT_OFFSET
       GenevaDriveCrossSection.CUT_RADIUS GenevaDriveCrossSection.SLOT_START_OFFSET
       GenevaDriveCrossSection.CENTER_SLOT_OFFSET GenevaDriveCrossSection.SLOT_LENGTH
       GenevaDriveCrossSection.SLOT_WIDTH GenevaDriveCrossSection.CROSS_WIDTH
       of_int lit_0_5 lit_0_8 py_add py_sub py_mul py_truediv py_neg
       math_sqrt math_cos math_sin math_pi PyNum_R].

(** Reduces an equation between lists of (optional) numbers to equations
    between the numbers. *)
Ltac strip_lists :=
  repeat match goal with
         | |- @eq (list _) (_ :: _) (_ :: _) => apply f_equal2
         | |- @eq (list _) [] [] => reflexivity
         | |- @eq (option _) (Some _) (Some _) => apply f_equal
         | |- @eq (_ * _)%type (_, _) (_, _) => apply f_equal2
         end.

Lemma sqrt2_pos : (0 < R_sqrt.sqrt 2)%R.
Proof. apply sqrt_lt_R0. lra. Qed.

Lemma sqrt2_neq_0 : R_sqrt.sqrt 2 <> 0%R.
Proof. apply Rgt_not_eq, Rlt_gt, sqrt2_pos. Qed.

(** With [sqrt 2 * sqrt 2 = 2], [100 / sqrt 2] is [50 * sqrt 2]. *)
Lemma disk_diameter_R : @DISK_DIAMETER R _ = (50 * R_sqrt.sqrt 2 + 4)%R.
Proof.
  assert (S2 : (R_sqrt.sqrt 2 * R_sqrt.sqrt 2 = 2)%R) by (apply sqrt_sqrt; lra).
  pose proof sqrt2_neq_0 as S0.
  assert (I : (/ R_sqrt.sqrt 2 = R_sqrt.sqrt 2 / 2)%R).
  { apply Rmult_eq_reg_l with (R_sqrt.sqrt 2); [| exact S0].
    rewrite Rinv_r by exact S0. lra. }
  in_R. unfold Rdiv. rewrite I. lra.
Qed.

Lemma sliding_circle_diameter_R :
  @SLIDING_CIRCLE_DIAMETER R _ = (40 * R_sqrt.sqrt 2 + 3.2)%R.
Proof. unfold SLIDING_CIRCLE_DIAMETER. rewrite disk_diameter_R. in_R. lra. Qed.

(** C3.  The module-level dimensions are derived from the base measurements
    by the formulas of lines 19-38; with BASE_LENGTH = 100, PLATE_THICKNESS =
    2, LIP_HEIGHT = 2 and BEARING_PLATE_OFFSET = 3 this gives PIN_DISTANCE =
    50, CIRCLES_PART_HEIGHT = 7 and CROSS_PART_HEIGHT = 9, over the reals and
    in CPython (where PIN_DISTANCE is the float 50.0 and the two heights are
    ints). *)
Theorem module_constants_derived :
  (forall T (N : PyNum T),
      PIN_DISTANCE = BASE_LENGTH * lit_0_5 /\
      DISK_DIAMETER = '2 * PIN_DISTANCE / math_sqrt '2 + PIN_DIAMETER /\
      SLIDING_CIRCLE_DIAMETER = DISK_DIAMETER * lit_0_8 /\
      CIRCLES_PART_HEIGHT = PLATE_THICKNESS + LIP_HEIGHT + BEARING_PLATE_OFFSET /\
      CROSS_PART_HEIGHT = CIRCLES_PART_HEIGHT + PLATE_THICKNESS /\
      BASE_LENGTH = '100 /\ PLATE_THICKNESS = '2 /\ LIP_HEIGHT = '2 /\
      BEARING_PLATE_OFFSET = '3) /\
  (@PIN_DISTANCE R _ = 50%R /\
   @CIRCLES_PART_HEIGHT R _ = 7%R /\
   @CROSS_PART_HEIGHT R _ = 9%R /\
   @DISK_DIAMETER R _ = (50 * R_sqrt.sqrt 2 + 4)%R /\
   @SLIDING_CIRCLE_DIAMETER R _ = (40 * R_sqrt.sqrt 2 + 3.2)%R) /\
  (forall libm_cos libm_sin,
      let N := PyNum_py libm_cos libm_sin in
      PIN_DISTANCE = Some (PyFloat 50) /\
      CIRCLES_PART_HEIGHT = Some (PyInt 7) /\
      CROSS_PART_HEIGHT = Some (PyInt 9) /\
      DISK_DIAMETER = Some (PyFloat 0x1.2ad7bc01366b7p+6) /\
      SLIDING_CIRCLE_DIAMETER = Some (PyFloat 0x1.de25f99b8a458p+5)).
Proof.
  split; [| split].
  - intros T N. repeat split.
  - repeat split; try (in_R; lra).
    + exact disk_diameter_R.
    + exact sliding_circle_diameter_R.
  - intros libm_cos libm_sin N. vm_compute. repeat split.
Qed.

(* ------------------------------------------------------------------------- *)
(** ** The plate, its pins and the bearings *)

Section PlateWithBearings.
Context {T : Type} {N : PyNum T}.
Variable pen_y_of : @Journal.journal T -> T.

Let asm := build pen_y_of PlateWithBearingsAssembly.construct.

Lemma plate_assembly_classes :
  the_class asm = Some "PlateWithBearingsAssembly" /\
  map (fun i => the_class (component asm i)) [0; 1; 2]%nat =
    [ Some "RoundedRectangularPlateWithPins"; Some "BallBearing626D";
      Some "BallBearing626D" ].
Proof. vm_compute. split; reflexivity. Qed.

Lemma plate_assembly_transforms :
  the_transforms asm =
    [ None;
      Some [ Journal.along_x (- PIN_DISTANCE / '2);
             Journal.along_z (CIRCLES_PART_HEIGHT - BEARING_PLATE_OFFSET) ];
      Some [ Journal.along_x (PIN_DISTANCE / '2);
             Journal.along_z (CROSS_PART_HEIGHT - BEARING_PLATE_OFFSET) ] ].
Proof. vm_compute. reflexivity. Qed.

Lemma plate_operations :
  the_operations (component asm 0) =
    [ Journal.extrusion
        (Journal.rounded_rectangle Journal.at_origin
           RoundedRectangularPlateWithPins.LENGTH RoundedRectangularPlateWithPins.WIDTH
           RoundedRectangularPlateWithPins.FILLET_RADIUS)
        (Height RoundedRectangularPlateWithPins.PLATE_THICKNESS) None;
      Journal.extrusion
        (Journal.circle (Journal.at_xy (- PIN_DISTANCE / '2) '0)
           (RoundedRectangularPlateWithPins.LIP_DIAMETER / '2))
        (StartEnd PLATE_THICKNESS CIRCLES_PART_HEIGHT) (Some false);
      Journal.extrusion
        (Journal.circle (Journal.at_xy (- PIN_DISTANCE / '2) '0)
           (RoundedRectangularPlateWithPins.PIN_DIAMETER / '2))
        (StartEnd (CIRCLES_PART_HEIGHT - BEARING_PLATE_OFFSET)
                  (CIRCLES_PART_HEIGHT + BEARING_HEIGHT - BEARING_PLATE_OFFSET))
        (Some false);
      Journal.extrusion
        (Journal.circle (Journal.at_xy (PIN_DISTANCE / '2) '0)
           (RoundedRectangularPlateWithPins.LIP_DIAMETER / '2))
        (StartEnd PLATE_THICKNESS CROSS_PART_HEIGHT) (Some false);
      Journal.extrusion
        (Journal.circle (Journal.at_xy (PIN_DISTANCE / '2) '0)
           (RoundedRectangularPlateWithPins.PIN_DIAMETER / '2))
        (StartEnd (CROSS_PART_HEIGHT - BEARING_PLATE_OFFSET)
                  (CROSS_PART_HEIGHT + BEARING_HEIGHT - BEARING_PLATE_OFFSET))
        (Some false) ].
Proof. vm_compute. reflexivity. Qed.

Lemma bearing_operations i :
  i = 1%nat \/ i = 2%nat ->
  the_operations (component asm i) =
    [ Journal.extrusion
        (Journal.circle Journal.at_origin (BallBearing626D.OUTER_DIAMETER / '2))
        (Height BallBearing626D.HEIGHT) None;
      Journal.extrusion
        (Journal.circle Journal.at_origin (BallBearing626D.INNER_DIAMETER / '2))
        (Height BallBearing626D.HEIGHT) (Some true) ].
Proof. intros [-> | ->]; vm_compute; reflexivity. Qed.
End PlateWithBearings.

(** Whatever the library, the plate assembly puts points and x translations
    only at the two pin positions. *)
Lemma plate_assembly_at_pins T (N : PyNum T) obj :
  calls_ok (@at_a_pin T N obj) (fun _ => True) PlateWithBearingsAssembly.construct.
Proof.
  cbv -[at_a_pin PIN_DISTANCE of_int py_add py_sub py_mul py_truediv py_neg
        math_sqrt math_cos math_sin math_pi lit_0_5 lit_0_8].
  repeat first [ apply ok_Ret
               | apply ok_Call; [simpl; auto | intros ?]
               | apply ok_Read; intros ? _ ].
Qed.

(** C1.  In every run, against any library, the plate assembly creates
    points and x translations only at x = -PIN_DISTANCE/2 or +PIN_DISTANCE/2
    (points with y = 0).  The plate's pin circles (lip and pin, twice) are centred at
    (-PIN_DISTANCE/2, 0) and (+PIN_DISTANCE/2, 0); the two bearings are
    translated along x by those same two numbers; the bore of each bearing is
    cut around the origin of the bearing's own sketch, so in the assembly the
    bores sit at x = -PIN_DISTANCE/2 and x = +PIN_DISTANCE/2 (-25 and 25),
    where the pins are. *)
Theorem bearing_bores_at_pin_centers :
  (forall T (N : PyNum T) obj St (lib : library T obj St) s,
      Forall at_a_pin (calls (trace lib PlateWithBearingsAssembly.construct s))) /\
  (forall T (N : PyNum T) pen_y_of,
      let asm := build pen_y_of PlateWithBearingsAssembly.construct in
      map (fun i => the_class (component asm i)) [0; 1; 2]%nat =
        [ Some "RoundedRectangularPlateWithPins"; Some "BallBearing626D";
          Some "BallBearing626D" ] /\
      circle_centers (the_operations (component asm 0)) =
        [ Journal.at_xy (- PIN_DISTANCE / '2) '0; Journal.at_xy (- PIN_DISTANCE / '2) '0;
          Journal.at_xy (PIN_DISTANCE / '2) '0; Journal.at_xy (PIN_DISTANCE / '2) '0 ] /\
      the_transforms asm =
        [ None;
          Some [ Journal.along_x (- PIN_DISTANCE / '2);
                 Journal.along_z (CIRCLES_PART_HEIGHT - BEARING_PLATE_OFFSET) ];
          Some [ Journal.along_x (PIN_DISTANCE / '2);
                 Journal.along_z (CROSS_PART_HEIGHT - BEARING_PLATE_OFFSET) ] ] /\
      map fst (circle_cuts (the_operations (component asm 1))) = [Journal.at_origin] /\
      map fst (circle_cuts (the_operations (component asm 2))) = [Journal.at_origin]) /\
  (forall pen_y_of,
      let asm := build (T:=R) pen_y_of PlateWithBearingsAssembly.construct in
      let bore i := map (fun c => x_in_assembly (nth i (the_transforms asm) None) (fst c))
                        (circle_cuts (the_operations (component asm i))) in
      bore 1%nat = [Some (- PIN_DISTANCE / '2)] /\
      bore 2%nat = [Some (PIN_DISTANCE / '2)] /\
      map x_of (circle_centers (the_operations (component asm 0))) =
        [Some (-25)%R; Some (-25)%R; Some 25%R; Some 25%R] /\
      bore 1%nat = [Some (-25)%R] /\
      bore 2%nat = [Some 25%R]) /\
  (forall libm_cos libm_sin pen_y_of,
      let N := PyNum_py libm_cos libm_sin in
      let asm := build pen_y_of PlateWithBearingsAssembly.construct in
      let bore i := map (fun c => x_in_assembly (nth i (the_transforms asm) None) (fst c))
                        (circle_cuts (the_operations (component asm i))) in
      bore 1%nat = [Some (- PIN_DISTANCE / '2)] /\
      bore 2%nat = [Some (PIN_DISTANCE / '2)] /\
      map x_of (circle_centers (the_operations (component asm 0))) =
        [ Some (Some (PyFloat (-25))); Some (Some (PyFloat (-25)));
          Some (Some (PyFloat 25)); Some (Some (PyFloat 25)) ] /\
      bore 1%nat = [Some (Some (PyFloat (-25)))] /\
      bore 2%nat = [Some (Some (PyFloat 25))]).
Proof.
  split; [| split; [| split]].
  - intros T N obj St lib s.
    apply run_calls_ok with (Q := fun _ => True).
    + apply plate_assembly_at_pins.
    + intros r s0 v s' _. exact I.
  - intros T N pen_y_of asm. subst asm.
    rewrite plate_operations, plate_assembly_transforms.
    rewrite !bearing_operations by auto.
    split; [apply plate_assembly_classes |]. repeat split.
  - intros pen_y_of asm bore. subst bore asm. cbv beta.
    rewrite plate_operations, plate_assembly_transforms.
    rewrite !bearing_operations by auto.
    cbn [circle_centers circle_cuts flat_map app map fst nth x_in_assembly option_map
         x_of shift_x fold_left].
    repeat split; strip_lists; in_R; lra.
  - intros libm_cos libm_sin pen_y_of N asm bore. vm_compute. repeat split.
Qed.

(** C8.  The pin fits the bore: the plate's PIN_DIAMETER (6) equals the
    bearing's INNER_DIAMETER (BEARING_INNER_DIAMETER = 6); the circles the
    plate extrudes as pins have radius PIN_DIAMETER/2 and the hole cut from
    each bearing has radius INNER_DIAMETER/2. *)
Theorem pin_diameter_is_bearing_bore :
  (forall T (N : PyNum T) pen_y_of,
      let asm := build pen_y_of PlateWithBearingsAssembly.construct in
      RoundedRectangularPlateWithPins.PIN_DIAMETER = BallBearing626D.INNER_DIAMETER /\
      BallBearing626D.INNER_DIAMETER = BEARING_INNER_DIAMETER /\
      circle_radii (the_operations (component asm 0)) =
        [ RoundedRectangularPlateWithPins.LIP_DIAMETER / '2;
          RoundedRectangularPlateWithPins.PIN_DIAMETER / '2;
          RoundedRectangularPlateWithPins.LIP_DIAMETER / '2;
          RoundedRectangularPlateWithPins.PIN_DIAMETER / '2 ] /\
      map snd (circle_cuts (the_operations (component asm 1))) =
        [ BallBearing626D.INNER_DIAMETER / '2 ] /\
      map snd (circle_cuts (the_operations (component asm 2))) =
        [ BallBearing626D.INNER_DIAMETER / '2 ]) /\
  (@RoundedRectangularPlateWithPins.PIN_DIAMETER R _ = 6%R /\
   @BallBearing626D.INNER_DIAMETER R _ = 6%R) /\
  (forall libm_cos libm_sin,
      let N := PyNum_py libm_cos libm_sin in
      RoundedRectangularPlateWithPins.PIN_DIAMETER = Some (PyInt 6) /\
      BallBearing626D.INNER_DIAMETER = Some (PyInt 6) /\
      RoundedRectangularPlateWithPins.PIN_DIAMETER / '2 = Some (PyFloat 3) /\
      BallBearing626D.INNER_DIAMETER / '2 = Some (PyFloat 3)).
Proof.
  split; [| split].
  - intros T N pen_y_of asm. subst asm.
    rewrite plate_operations, !bearing_operations by auto.
    repeat split.
  - split; reflexivity.
  - intros libm_cos libm_sin N. vm_compute. repeat split.
Qed.

(** C9.  Each bearing sits on its pin: bearing1 is translated along z by
    CIRCLES_PART_HEIGHT - BEARING_PLATE_OFFSET, which is the start of the
    first pin extrusion; bearing2 by CROSS_PART_HEIGHT - BEARING_PLATE_OFFSET,
    the start of the second pin extrusion; and each pin extrusion spans the
    height of a bearing, end - start = BEARING_HEIGHT. *)
Theorem bearings_sit_on_pins :
  (forall T (N : PyNum T) pen_y_of,
      let asm := build pen_y_of PlateWithBearingsAssembly.construct in
      let plate := component asm 0 in
      start_end (operation_at plate 2) =
        Some (CIRCLES_PART_HEIGHT - BEARING_PLATE_OFFSET,
              CIRCLES_PART_HEIGHT + BEARING_HEIGHT - BEARING_PLATE_OFFSET) /\
      start_end (operation_at plate 4) =
        Some (CROSS_PART_HEIGHT - BEARING_PLATE_OFFSET,
              CROSS_PART_HEIGHT + BEARING_HEIGHT - BEARING_PLATE_OFFSET) /\
      map Some (z_moves (nth 1 (the_transforms asm) None)) =
        [ option_map fst (start_end (operation_at plate 2)) ] /\
      map Some (z_moves (nth 2 (the_transforms asm) None)) =
        [ option_map fst (start_end (operation_at plate 4)) ] /\
      BallBearing626D.HEIGHT = BEARING_HEIGHT) /\
  (forall pen_y_of,
      let asm := build (T:=R) pen_y_of PlateWithBearingsAssembly.construct in
      let plate := component asm 0 in
      let span i := option_map (fun se => snd se - fst se) (start_end (operation_at plate i)) in
      span 2%nat = Some BEARING_HEIGHT /\
      span 4%nat = Some BEARING_HEIGHT /\
      z_moves (nth 1 (the_transforms asm) None) = [4%R] /\
      z_moves (nth 2 (the_transforms asm) None) = [6%R] /\
      @BEARING_HEIGHT R _ = 6%R) /\
  (forall libm_cos libm_sin pen_y_of,
      let N := PyNum_py libm_cos libm_sin in
      let asm := build pen_y_of PlateWithBearingsAssembly.construct in
      let plate := component asm 0 in
      let span i := option_map (fun se => snd se - fst se) (start_end (operation_at plate i)) in
      span 2%nat = Some BEARING_HEIGHT /\
      span 4%nat = Some BEARING_HEIGHT /\
      z_moves (nth 1 (the_transforms asm) None) = [Some (PyInt 4)] /\
      z_moves (nth 2 (the_transforms asm) None) = [Some (PyInt 6)] /\
      BEARING_HEIGHT = Some (PyInt 6)).
Proof.
  split; [| split].
  - intros T N pen_y_of asm plate. subst plate asm. unfold operation_at.
    rewrite plate_operations, plate_assembly_transforms. repeat split.
  - intros pen_y_of asm plate span. subst span plate asm. cbv beta.
    unfold operation_at. rewrite plate_operations, plate_assembly_transforms.
    cbn [nth start_end option_map fst snd z_moves flat_map app].
    repeat split; strip_lists; in_R; lra.
  - intros libm_cos libm_sin pen_y_of N asm plate span. vm_compute. repeat split.
Qed.

(* ------------------------------------------------------------------------- *)
(** ** The drive *)

Section Drive.
Context {T : Type} {N : PyNum T}.
Variable pen_y_of : @Journal.journal T -> T.

Let drive := build pen_y_of GenevaDrive.construct.

Lemma drive_components :
  the_class drive = Some "GenevaDrive" /\
  map (fun i => the_class (component drive i)) (seq 0 (List.length (the_transforms drive))) =
    [ Some "PlateWithBearingsAssembly"; Some "GenevaDiskAndHoles";
      Some "GenevaDriveCrossSection" ].
Proof. vm_compute. split; reflexivity. Qed.

Lemma drive_transforms :
  the_transforms drive =
    [ None;
      Some [ Journal.along_z CIRCLES_PART_HEIGHT; Journal.along_x (- PIN_DISTANCE / '2) ];
      Some [ Journal.along_z CROSS_PART_HEIGHT; Journal.along_x (PIN_DISTANCE / '2) ] ].
Proof. vm_compute. reflexivity. Qed.
End Drive.

(** C4.  Constructing GenevaDrive adds exactly three components: the
    PlateWithBearingsAssembly with no transform, the GenevaDiskAndHoles
    translated by z = CIRCLES_PART_HEIGHT and x = -PIN_DISTANCE/2, and the
    GenevaDriveCrossSection translated by z = CROSS_PART_HEIGHT and
    x = +PIN_DISTANCE/2 (that is z = 7, x = -25 and z = 9, x = 25). *)
Theorem drive_has_three_placed_components :
  (forall T (N : PyNum T) pen_y_of,
      let drive := build pen_y_of GenevaDrive.construct in
      the_class drive = Some "GenevaDrive" /\
      List.length (the_transforms drive) = 3%nat /\
      map (fun i => the_class (component drive i)) [0; 1; 2]%nat =
        [ Some "PlateWithBearingsAssembly"; Some "GenevaDiskAndHoles";
          Some "GenevaDriveCrossSection" ] /\
      the_transforms drive =
        [ None;
          Some [ Journal.along_z CIRCLES_PART_HEIGHT;
                 Journal.along_x (- PIN_DISTANCE / '2) ];
          Some [ Journal.along_z CROSS_PART_HEIGHT;
                 Journal.along_x (PIN_DISTANCE / '2) ] ]) /\
  (forall pen_y_of,
      the_transforms (build (T:=R) pen_y_of GenevaDrive.construct) =
        [ None;
          Some [ Journal.along_z 7%R; Journal.along_x (-25)%R ];
          Some [ Journal.along_z 9%R; Journal.along_x 25%R ] ]) /\
  (forall libm_cos libm_sin pen_y_of,
      let N := PyNum_py libm_cos libm_sin in
      the_transforms (build pen_y_of GenevaDrive.construct) =
        [ None;
          Some [ Journal.along_z (Some (PyInt 7)); Journal.along_x (Some (PyFloat (-25))) ];
          Some [ Journal.along_z (Some (PyInt 9)); Journal.along_x (Some (PyFloat 25)) ] ]).
Proof.
  split; [| split].
  - intros T N pen_y_of drive. subst drive.
    pose proof (drive_components pen_y_of) as [C1 C2].
    rewrite drive_transforms in *. repeat split; assumption.
  - intros pen_y_of. rewrite drive_transforms.
    repeat (apply f_equal2 || apply f_equal); try reflexivity; in_R; lra.
  - intros libm_cos libm_sin pen_y_of N. vm_compute. reflexivity.
Qed.

(* ------------------------------------------------------------------------- *)
(** ** The cross-section cam *)

Section CrossSection.
Context {T : Type} {N : PyNum T}.
Variable pen_y_of : @Journal.journal T -> T.

Let cs := build pen_y_of GenevaDriveCrossSection.construct.

Lemma cross_section_class : the_class cs = Some "GenevaDriveCrossSection".
Proof. vm_compute. reflexivity. Qed.

Lemma cross_section_size : List.length (the_operations cs) = 10%nat.
Proof. vm_compute. reflexivity. Qed.

Lemma cross_section_slots :
  map vertices (polygon_cuts (the_operations cs)) =
  map (fun i => map at_point (GenevaDriveCrossSection.cut_pin_slot_points i)) (range 4).
Proof. vm_compute. reflexivity. Qed.

Lemma cross_section_circle_cuts :
  circle_cuts (the_operations cs) =
  map (fun p => (at_point p, GenevaDriveCrossSection.CUT_RADIUS))
      [ ('0, GenevaDriveCrossSection.CUT_OFFSET);
        ('0, - GenevaDriveCrossSection.CUT_OFFSET);
        (GenevaDriveCrossSection.CUT_OFFSET, '0);
        (- GenevaDriveCrossSection.CUT_OFFSET, '0) ]
  ++ [ (Journal.at_origin, BEARING_DIAMETER / '2) ].
Proof. vm_compute. reflexivity. Qed.

(** [cut_4_circles] alone adds the four reliefs and nothing else. *)
Lemma cut_4_circles_adds :
  let part := build pen_y_of
                (on_new_part "GenevaDriveCrossSection" GenevaDriveCrossSection.cut_4_circles) in
  List.length (the_operations part) = 4%nat /\
  circle_cuts (the_operations part) =
    [ (Journal.at_xy '0 GenevaDriveCrossSection.CUT_OFFSET,
       GenevaDriveCrossSection.CUT_RADIUS);
      (Journal.at_xy '0 (- GenevaDriveCrossSection.CUT_OFFSET),
       GenevaDriveCrossSection.CUT_RADIUS);
      (Journal.at_xy GenevaDriveCrossSection.CUT_OFFSET '0,
       GenevaDriveCrossSection.CUT_RADIUS);
      (Journal.at_xy (- GenevaDriveCrossSection.CUT_OFFSET) '0,
       GenevaDriveCrossSection.CUT_RADIUS) ].
Proof. vm_compute. split; reflexivity. Qed.

(** [cut_pin_slot] alone adds the four slots and nothing else. *)
Lemma cut_pin_slot_adds :
  let part := build pen_y_of
                (on_new_part "GenevaDriveCrossSection" GenevaDriveCrossSection.cut_pin_slot) in
  List.length (the_operations part) = 4%nat /\
  map vertices (polygon_cuts (the_operations part)) =
    map (fun i => map at_point (GenevaDriveCrossSection.cut_pin_slot_points i))
        [0; 1; 2; 3]%Z.
Proof. vm_compute. split; reflexivity. Qed.
End CrossSection.

Lemma center_slot_offset_pos : (0 < @GenevaDriveCrossSection.CENTER_SLOT_OFFSET R _)%R.
Proof.
  in_R. pose proof sqrt2_pos.
  assert (0 < 2 * (100 * 0.5) / R_sqrt.sqrt 2)%R by (apply Rdiv_lt_0_compat; lra).
  lra.
Qed.

Lemma slot_centroid i :
  centroid (GenevaDriveCrossSection.cut_pin_slot_points (T:=R) i) =
  (cos (slot_orientation i) * GenevaDriveCrossSection.CENTER_SLOT_OFFSET,
   sin (slot_orientation i) * GenevaDriveCrossSection.CENTER_SLOT_OFFSET)%R.
Proof.
  unfold centroid, GenevaDriveCrossSection.cut_pin_slot_points, slot_orientation.
  cbn [map fst snd fold_right List.length INR].
  cbv [py_add py_sub py_mul py_truediv py_neg math_cos math_sin math_pi of_int PyNum_R].
  f_equal; field.
Qed.

Lemma slot_axis i :
  let pts := GenevaDriveCrossSection.cut_pin_slot_points (T:=R) i in
  let p1 := nth 1 pts (0, 0)%R in
  let p2 := nth 2 pts (0, 0)%R in
  (fst p2 - fst p1 = cos (slot_orientation i) * GenevaDriveCrossSection.SLOT_LENGTH /\
   snd p2 - snd p1 = sin (slot_orientation i) * GenevaDriveCrossSection.SLOT_LENGTH)%R.
Proof.
  unfold GenevaDriveCrossSection.cut_pin_slot_points, slot_orientation.
  cbn [nth fst snd].
  cbv [py_add py_sub py_mul py_truediv py_neg math_cos math_sin math_pi of_int PyNum_R].
  split; field.
Qed.

(** The orientations the script computes in binary64 are the arguments of
    the two tables. *)
Lemma orientations_tabulated :
  map orientation_binary64 [0; 1; 2; 3]%Z =
  map (fun row => Some (PyFloat (fst row))) cos_table /\
  map fst sin_table = map fst cos_table.
Proof. vm_compute. split; reflexivity. Qed.

(** In binary64 the centre of every slot is within a relative 2^-52 of the
    circle of radius CENTER_SLOT_OFFSET, and never on it. *)
Lemma slot_centers_in_binary64 :
  Forall (fun i => exists e,
              slot_center_error i = Some e /\
              ~ QArith_base.Qeq e (QArith_base.Qmake 0 1) /\
              QArith_base.Qle (Qabs.Qabs e) (QArith_base.Qmake 1 (2 ^ 52)))
         [0; 1; 2; 3]%Z.
Proof.
  repeat constructor.
  all: eexists; split;
    [ vm_compute; reflexivity
    | split; [intros E; vm_compute in E; discriminate E | vm_compute; discriminate] ].
Qed.



(* ------------------------------------------------------------------------- *)
(** ** The drive disk *)

Section Disk.
Context {T : Type} {N : PyNum T}.
Variable pen_y_of : @Journal.journal T -> T.

Let disk := build pen_y_of GenevaDiskAndHoles.construct.

Lemma disk_profile :
  line_to_xs (operation_at disk 0) =
    [ '0; GenevaDiskAndHoles.DISK_DIAMETER / '2;
      (GenevaDiskAndHoles.TOP_CIRCLE_DIAMETER - DISK_TOLERANCE) / '2; '0 ].
Proof. vm_compute. reflexivity. Qed.

Lemma disk_pins_and_cut :
  tl (the_operations disk) =
    [ Journal.extrusion
        (Journal.circle (Journal.at_xy '0 GenevaDiskAndHoles.CUT_OFFSET)
           (GenevaDiskAndHoles.CUT_DIAMETER / '2))
        (Height (GenevaDiskAndHoles.STEP_HEIGHT + GenevaDiskAndHoles.LIP_HEIGHT))
        (Some true);
      Journal.extrusion
        (Journal.circle
           (Journal.at_xy (lit_0_8 * (GenevaDiskAndHoles.TOP_CIRCLE_DIAMETER / '2)) '0)
           (PIN_DIAMETER / '2))
        (StartEnd '0 PIN_HEIGHT) (Some false);
      Journal.extrusion
        (Journal.circle (Journal.at_xy '0 (PIN_DISTANCE / math_sqrt '2))
           (PIN_DIAMETER / '2))
        (StartEnd '0 PIN_HEIGHT) (Some false) ].
Proof. vm_compute. reflexivity. Qed.
End Disk.

(** C10.  The sliding pin touches the rim of the drive disk from inside: its
    centre is at distance PIN_DISTANCE/sqrt 2 from the axis and its radius is
    PIN_DIAMETER/2, the disk profile reaches out to DISK_DIAMETER/2, and
    PIN_DISTANCE/sqrt 2 + PIN_DIAMETER/2 = DISK_DIAMETER/2, over the reals and
    in binary64. *)
Theorem sliding_pin_tangent_to_disk_rim :
  (forall T (N : PyNum T) pen_y_of,
      let disk := build pen_y_of GenevaDiskAndHoles.construct in
      operation_at disk 3 =
        Journal.extrusion
          (Journal.circle (Journal.at_xy '0 (PIN_DISTANCE / math_sqrt '2))
             (PIN_DIAMETER / '2))
          (StartEnd '0 PIN_HEIGHT) (Some false) /\
      line_to_xs (operation_at disk 0) =
        [ '0; DISK_DIAMETER / '2;
          (SLIDING_CIRCLE_DIAMETER - DISK_TOLERANCE) / '2; '0 ]) /\
  (@PIN_DISTANCE R _ / math_sqrt '2 + PIN_DIAMETER / '2 = DISK_DIAMETER / '2) /\
  (forall libm_cos libm_sin,
      let N := PyNum_py libm_cos libm_sin in
      PIN_DISTANCE / math_sqrt '2 + PIN_DIAMETER / '2 = DISK_DIAMETER / '2 /\
      DISK_DIAMETER / '2 = Some (PyFloat 0x1.2ad7bc01366b7p+5) /\
      PIN_DISTANCE / math_sqrt '2 = Some (PyFloat 0x1.1ad7bc01366b7p+5) /\
      PIN_DIAMETER / '2 = Some (PyFloat 2)).
Proof.
  split; [| split].
  - intros T N pen_y_of disk. subst disk. split.
    + unfold operation_at.
      pose proof (disk_pins_and_cut pen_y_of) as E.
      destruct (the_operations (build pen_y_of GenevaDiskAndHoles.construct)) as [| op ops];
        [discriminate E |].
      simpl in E. subst ops. reflexivity.
    + apply disk_profile.
  - in_R. field. exact sqrt2_neq_0.
  - intros libm_cos libm_sin N. vm_compute. repeat split.
Qed.

(* ------------------------------------------------------------------------- *)
(** ** The names taken from the library *)

Lemma main_goes_through T (N : PyNum T) obj :
  calls_ok (fun c => In (imported_name c)
                        (spec_external_interface ++ ["RoundedCornerRectangle"]))
           (fun _ => True) (@main T N obj).
Proof.
  cbv -[In imported_name spec_external_interface app
        of_int lit_0_5 lit_0_8 py_add py_sub py_mul py_truediv py_neg
        math_sqrt math_cos math_sin math_pi].
  repeat first [ apply ok_Ret
               | apply ok_Call; [vm_compute; tauto | intros ?]
               | apply ok_Read; intros ? _ ].
Qed.

(** The journal of a run of the script records a call that goes through
    [RoundedCornerRectangle], made by [create_plate]. *)
Lemma rounded_corner_rectangle_is_called T (N : PyNum T) pen_y_of :
  In "RoundedCornerRectangle"
     (map (@imported_name T _) (calls (trace (Journal.lib pen_y_of) main []))).
Proof. vm_compute. tauto. Qed.

(** C5, as stated, fails: the script imports [RoundedCornerRectangle] (line
    14) and calls it in [create_plate] (line 95), and section 6 of the
    specification does not list it. *)
Lemma interface_list_misses_rounded_rectangle :
  ~ consumes_only spec_external_interface.
Proof.
  intros [I _]. specialize (I "RoundedCornerRectangle").
  assert (In "RoundedCornerRectangle" foundation_imports) as H by (vm_compute; tauto).
  apply I in H. vm_compute in H.
  repeat (destruct H as [H | H]; [discriminate H |]). exact H.
Qed.

(** C5, amended.  Every name the script consumes from [foundation] is one of
    the primitives section 6 lists or [RoundedCornerRectangle]: the import
    statement names nothing else, and every call the script can make goes
    through one of these names. *)
Theorem consumed_names_are_listed_or_rounded_rectangle :
  consumes_only (spec_external_interface ++ ["RoundedCornerRectangle"]).
Proof.
  split.
  - intros n H. vm_compute in H. vm_compute.
    repeat (destruct H as [H | H]; [subst n; tauto |]). contradiction.
  - intros T N obj. apply main_goes_through.
Qed.

(* ------------------------------------------------------------------------- *)
(** ** No error handling, no input *)

(** In CPython no argument the script computes raises, whatever the C
    library's [cos] and [sin] return and whatever numbers [pen.y] gives. *)
Lemma construct_arguments_defined libm_cos libm_sin obj :
  calls_ok (fun c => Forall defined (numeric_args c)) defined
           (@GenevaDrive.construct pyval (PyNum_py libm_cos libm_sin) obj).
Proof.
  cbv -[defined].
  repeat first [ apply ok_Ret
               | apply ok_Call;
                 [repeat constructor; first [discriminate | assumption] | intros ?]
               | apply ok_Read; intros ? ? ].
Qed.

(** Every dimension of the module and of the classes evaluates to a number
    in CPython. *)
Lemma constants_defined libm_cos libm_sin :
  let N := PyNum_py libm_cos libm_sin in
  Forall defined
    [ BASE_WIDTH; BASE_LENGTH; PIN_DISTANCE; PIN_DIAMETER; DISK_DIAMETER;
      SLIDING_CIRCLE_DIAMETER; BEARING_HEIGHT; BEARING_DIAMETER;
      BEARING_INNER_DIAMETER; PLATE_THICKNESS; PIN_HEIGHT; LIP_HEIGHT;
      DISK_TOLERANCE; BEARING_PLATE_OFFSET; CIRCLES_PART_HEIGHT; CROSS_PART_HEIGHT;
      BallBearing626D.OUTER_DIAMETER; BallBearing626D.INNER_DIAMETER;
      BallBearing626D.HEIGHT;
      RoundedRectangularPlateWithPins.WIDTH; RoundedRectangularPlateWithPins.LENGTH;
      RoundedRectangularPlateWithPins.PIN_DIAMETER;
      RoundedRectangularPlateWithPins.LIP_DIAMETER;
      RoundedRectangularPlateWithPins.LIP_HEIGHT;
      RoundedRectangularPlateWithPins.PIN_HEIGHT;
      RoundedRectangularPlateWithPins.PIN_DISTANCE;
      RoundedRectangularPlateWithPins.FILLET_RADIUS;
      RoundedRectangularPlateWithPins.PLATE_THICKNESS;
      GenevaDiskAndHoles.PART_THICKNESS; GenevaDiskAndHoles.STEP_HEIGHT;
      GenevaDiskAndHoles.DISK_DIAMETER; GenevaDiskAndHoles.TOP_CIRCLE_DIAMETER;
      GenevaDiskAndHoles.CUT_DIAMETER; GenevaDiskAndHoles.CUT_OFFSET;
      GenevaDiskAndHoles.LIP_HEIGHT;
      GenevaDriveCrossSection.WIDTH; GenevaDriveCrossSection.CUT_OFFSET;
      GenevaDriveCrossSection.CUT_RADIUS; GenevaDriveCrossSection.SLOT_START_OFFSET;
      GenevaDriveCrossSection.CENTER_SLOT_OFFSET; GenevaDriveCrossSection.SLOT_LENGTH;
      GenevaDriveCrossSection.SLOT_WIDTH; GenevaDriveCrossSection.CROSS_WIDTH ].
Proof. intros N. vm_compute. repeat constructor; discriminate. Qed.

(** C6.  The script handles no error of its own.  Run in CPython against any
    library whose operations all answer (and whose [pen.y] is a number),
    constructing GenevaDrive returns, and every number it passed to the
    library was computed without raising: nothing in the script raises,
    catches or branches. *)
Theorem construction_completes_if_library_total :
  forall libm_cos libm_sin obj St (lib : library pyval obj St),
    total lib ->
    answers lib defined ->
    forall s,
      outcome lib (@GenevaDrive.construct pyval (PyNum_py libm_cos libm_sin) obj) s <> None /\
      Forall (fun c => Forall defined (numeric_args c))
             (calls (trace lib (@GenevaDrive.construct pyval (PyNum_py libm_cos libm_sin) obj) s)).
Proof.
  intros libm_cos libm_sin obj St lib Ht Ha s. split.
  - apply run_total. exact Ht.
  - apply run_calls_ok with (Q := defined).
    + apply construct_arguments_defined.
    + exact Ha.
Qed.

Lemma construction_completes_witness :
  total (fresh_handles (Some (PyInt 0))) /\
  answers (fresh_handles (Some (PyInt 0))) defined /\
  outcome (fresh_handles (Some (PyInt 0)))
          (@GenevaDrive.construct pyval (PyNum_py (fun x => x) (fun x => x)) nat) 0%nat
    <> None /\
  Forall (fun c => Forall defined (numeric_args c))
         (calls (trace (fresh_handles (Some (PyInt 0)))
                       (@GenevaDrive.construct pyval (PyNum_py (fun x => x) (fun x => x)) nat)
                       0%nat)).
Proof.
  assert (Ht : total (fresh_handles (Some (PyInt 0)))).
  { split; intros; simpl; discriminate. }
  assert (Ha : answers (fresh_handles (Some (PyInt 0))) defined).
  { intros r s v s' E. simpl in E. injection E as <- _. discriminate. }
  split; [exact Ht | split; [exact Ha |]].
  exact (construction_completes_if_library_total (fun x => x) (fun x => x) Ht Ha 0%nat).
Defined.

(** The constructor makes the same calls whatever objects the library hands
    out. *)
Lemma construct_alike T (N : PyNum T) o1 o2 :
  alike (fun _ _ => True)
        (GenevaDrive.construct (obj:=o1)) (GenevaDrive.construct (obj:=o2)).
Proof.
  cbv -[PIN_DISTANCE DISK_DIAMETER SLIDING_CIRCLE_DIAMETER CIRCLES_PART_HEIGHT
        CROSS_PART_HEIGHT of_int py_add py_sub py_mul py_truediv py_neg
        math_sqrt math_cos math_sin math_pi lit_0_5 lit_0_8].
  repeat alike_step.
Qed.

(** Two constructions that both return and in which [pen.y] gave the same
    numbers make the same sequence of library calls with the same numeric
    arguments, strings and flags. *)
Lemma same_reads_same_calls :
  forall T (N : PyNum T) o1 o2 St1 St2
         (lib1 : library T o1 St1) (lib2 : library T o2 St2) s1 s2,
    outcome lib1 GenevaDrive.construct s1 <> None ->
    outcome lib2 GenevaDrive.construct s2 <> None ->
    reads (trace lib1 GenevaDrive.construct s1) = reads (trace lib2 GenevaDrive.construct s2) ->
    map observe (trace lib1 GenevaDrive.construct s1) =
    map observe (trace lib2 GenevaDrive.construct s2).
Proof.
  intros T N o1 o2 St1 St2 lib1 lib2 s1 s2.
  apply alike_runs with (R := fun _ _ => True). apply construct_alike.
Qed.

(* ------------------------------------------------------------------------- *)
(** ** The outline of a slot *)

(** Unfolds the points of a slot in the real-number reading. *)
Ltac slot_R :=
  unfold GenevaDriveCrossSection.cut_pin_slot_points;
  cbv [py_add py_sub py_mul py_truediv py_neg math_cos math_sin math_pi of_int PyNum_R].

Lemma zip_tail_fst X (xs : list X) : map fst (zip xs (tl xs)) = removelast xs.
Proof.
  induction xs as [| a [| b xs'] IH]; try reflexivity.
  change (a :: map fst (zip (b :: xs') (tl (b :: xs'))) = a :: removelast (b :: xs')).
  rewrite IH. reflexivity.
Qed.

Lemma zip_tail_snd X (xs : list X) : map snd (zip xs (tl xs)) = tl xs.
Proof.
  induction xs as [| a [| b xs'] IH]; try reflexivity.
  change (b :: map snd (zip (b :: xs') (tl (b :: xs'))) = b :: tl (b :: xs')).
  rewrite IH. reflexivity.
Qed.

Lemma sqrt2_gt : (1.4 < R_sqrt.sqrt 2)%R.
Proof.
  replace 1.4%R with (R_sqrt.sqrt (1.4 * 1.4)) by (apply sqrt_square; lra).
  apply sqrt_lt_1; lra.
Qed.

Lemma slot_length_R :
  @GenevaDriveCrossSection.SLOT_LENGTH R _ = (90 * R_sqrt.sqrt 2 - 92.8)%R.
Proof.
  unfold GenevaDriveCrossSection.SLOT_LENGTH, GenevaDriveCrossSection.CENTER_SLOT_OFFSET,
    GenevaDriveCrossSection.WIDTH, GenevaDriveCrossSection.SLOT_START_OFFSET.
  rewrite sliding_circle_diameter_R, disk_diameter_R. in_R. lra.
Qed.

Lemma slot_length_pos : (0 < @GenevaDriveCrossSection.SLOT_LENGTH R _)%R.
Proof. rewrite slot_length_R. pose proof sqrt2_gt. lra. Qed.

(** The sides of the quadrilateral through the four points of a slot. *)
Lemma slot_sides i :
  let pts := GenevaDriveCrossSection.cut_pin_slot_points (T:=R) i in
  let p k := nth k pts (0, 0)%R in
  sq_dist (p 0%nat) (p 1%nat) =
    (GenevaDriveCrossSection.SLOT_WIDTH * GenevaDriveCrossSection.SLOT_WIDTH)%R /\
  sq_dist (p 1%nat) (p 2%nat) =
    (GenevaDriveCrossSection.SLOT_LENGTH * GenevaDriveCrossSection.SLOT_LENGTH)%R /\
  sq_dist (p 3%nat) (p 0%nat) =
    (GenevaDriveCrossSection.SLOT_LENGTH * GenevaDriveCrossSection.SLOT_LENGTH)%R /\
  dot (vec (p 0%nat) (p 1%nat)) (vec (p 1%nat) (p 2%nat)) = 0%R /\
  vec (p 3%nat) (p 2%nat) = vec (p 0%nat) (p 1%nat).
Proof.
  intros pts p. subst p pts. slot_R. cbn [nth]. unfold sq_dist, dot, vec. cbn [fst snd].
  set (o := (IZR i * PI / IZR 2 + PI / IZR 4)%R).
  pose proof (sin2_cos2 o) as H. unfold Rsqr in H.
  set (c := cos o) in *. set (s := sin o) in *.
  set (W := GenevaDriveCrossSection.SLOT_WIDTH).
  set (L := GenevaDriveCrossSection.SLOT_LENGTH).
  set (C := GenevaDriveCrossSection.CENTER_SLOT_OFFSET).
  repeat split.
  - replace (W * W)%R with (W * W * (s * s + c * c))%R by (rewrite H; ring). field.
  - replace (L * L)%R with (L * L * (s * s + c * c))%R by (rewrite H; ring). field.
  - replace (L * L)%R with (L * L * (s * s + c * c))%R by (rewrite H; ring). field.
  - field.
  - f_equal; field.
Qed.

(** X1.  [zip(points, points[1:])] pairs each point with the next one, so n
    points give n - 1 lines and no line leads from the last point back to the
    first.  Each slot polygon is therefore given exactly three lines, through
    its four points in order, and the fourth point is not the first, over
    the reals and in binary64: the outline handed to [Polygon] is an open
    chain. *)
Theorem slot_outline_is_open_chain :
  (forall X (xs : list X),
      List.length (zip xs (tl xs)) = pred (List.length xs) /\
      map fst (zip xs (tl xs)) = removelast xs /\
      map snd (zip xs (tl xs)) = tl xs) /\
  (forall T (N : PyNum T) pen_y_of,
      let cs := build pen_y_of GenevaDriveCrossSection.construct in
      polygon_cuts (the_operations cs) =
        map (fun i => let pts := map at_point (GenevaDriveCrossSection.cut_pin_slot_points i) in
                      zip pts (tl pts))
            [0; 1; 2; 3]%Z /\
      map (@List.length _) (polygon_cuts (the_operations cs)) = [3; 3; 3; 3]%nat) /\
  (forall i : Z,
      let pts := GenevaDriveCrossSection.cut_pin_slot_points (T:=R) i in
      nth 3 pts (0, 0)%R <> nth 0 pts (0, 0)%R) /\
  Forall (fun i =>
            let pts := @GenevaDriveCrossSection.cut_pin_slot_points pyval PyNum_binary64 i in
            nth 3 pts (None, None) <> nth 0 pts (None, None))
         [0; 1; 2; 3]%Z.
Proof.
  split; [| split; [| split]];
    [ | | | repeat constructor; intros pts E;
            apply (f_equal (fun p => match fst p with
                                     | Some (PyFloat f) => Some (Prim2SF f)
                                     | _ => None
                                     end)) in E;
            vm_compute in E; discriminate E ].
  - intros X xs. split; [| split].
    + rewrite <- (length_map snd), zip_tail_snd. destruct xs; reflexivity.
    + apply zip_tail_fst.
    + apply zip_tail_snd.
  - intros T N pen_y_of cs. subst cs. vm_compute. split; reflexivity.
  - intros i pts E. subst pts.
    destruct (slot_sides i) as [_ [_ [S _]]]. cbv beta zeta in S. rewrite E in S.
    assert (Z : forall q : R * R, sq_dist q q = 0%R)
      by (intros q; unfold sq_dist, dot, vec; cbn [fst snd]; ring).
    rewrite Z in S. pose proof slot_length_pos as P.
    assert (0 < GenevaDriveCrossSection.SLOT_LENGTH * GenevaDriveCrossSection.SLOT_LENGTH)%R
      by (apply Rmult_lt_0_compat; exact P).
    lra.
Qed.

(** Over the reals the four points of every slot are the corners of a
    rectangle SLOT_LENGTH long and SLOT_WIDTH wide: opposite sides are equal
    as vectors, adjacent sides are perpendicular, and the sides measure
    SLOT_WIDTH and SLOT_LENGTH. *)
Lemma slot_is_rectangle :
  forall i : Z,
    let pts := GenevaDriveCrossSection.cut_pin_slot_points (T:=R) i in
    let p k := nth k pts (0, 0)%R in
    vec (p 3%nat) (p 2%nat) = vec (p 0%nat) (p 1%nat) /\
    dot (vec (p 0%nat) (p 1%nat)) (vec (p 1%nat) (p 2%nat)) = 0%R /\
    R_sqrt.sqrt (sq_dist (p 0%nat) (p 1%nat)) = GenevaDriveCrossSection.SLOT_WIDTH /\
    R_sqrt.sqrt (sq_dist (p 1%nat) (p 2%nat)) = GenevaDriveCrossSection.SLOT_LENGTH /\
    @GenevaDriveCrossSection.SLOT_WIDTH R _ = 5%R /\
    @GenevaDriveCrossSection.SLOT_LENGTH R _ = (90 * R_sqrt.sqrt 2 - 92.8)%R.
Proof.
  intros i pts p. subst p pts. cbv beta.
  destruct (slot_sides i) as [W [L [_ [D V]]]]. cbv beta zeta in W, L, D, V.
  split; [exact V | split; [exact D |]].
  rewrite W, L. split; [| split; [| split]].
  - apply sqrt_square. in_R. lra.
  - apply sqrt_square, Rlt_le, slot_length_pos.
  - in_R. lra.
  - apply slot_length_R.
Qed.

Lemma orientation_next i : slot_orientation (i + 1) = (PI / 2 + slot_orientation i)%R.
Proof. unfold slot_orientation. rewrite plus_IZR. field. Qed.

Lemma cos_quarter x : cos (PI / 2 + x) = (- sin x)%R.
Proof. rewrite (sin_cos x). lra. Qed.

Lemma sin_quarter x : sin (PI / 2 + x) = cos x.
Proof. symmetry. apply cos_sin. Qed.

Lemma slot_points_next (i : Z) :
  GenevaDriveCrossSection.cut_pin_slot_points (T:=R) (i + 1) =
  map quarter_turn (GenevaDriveCrossSection.cut_pin_slot_points (T:=R) i).
Proof.
  slot_R. fold (slot_orientation (i + 1)) (slot_orientation i).
  rewrite orientation_next, cos_quarter, sin_quarter.
  unfold quarter_turn. cbn [map fst snd].
  repeat (apply f_equal2; [apply f_equal2; field |]). reflexivity.
Qed.

Lemma quarter_turn_four p : quarter_turn (quarter_turn (quarter_turn (quarter_turn p))) = p.
Proof. destruct p as [x y]. unfold quarter_turn. cbn [fst snd]. f_equal; lra. Qed.

(** In exact arithmetic the cuts of the cam are invariant under a quarter turn about its
    axis.  Over the reals the points of slot i + 1 are those of slot i turned
    by 90 degrees, for every integer i, so the points repeat with period 4;
    and a quarter turn permutes the centres of the four reliefs. *)
Lemma cam_cuts_invariant_under_quarter_turn :
  (forall i : Z,
      GenevaDriveCrossSection.cut_pin_slot_points (T:=R) (i + 1) =
      map quarter_turn (GenevaDriveCrossSection.cut_pin_slot_points (T:=R) i)) /\
  (forall i : Z,
      GenevaDriveCrossSection.cut_pin_slot_points (T:=R) (i + 4) =
      GenevaDriveCrossSection.cut_pin_slot_points (T:=R) i) /\
  Permutation (map quarter_turn (@GenevaDriveCrossSection.cut_4_circles_points R _))
              (@GenevaDriveCrossSection.cut_4_circles_points R _).
Proof.
  split; [exact slot_points_next | split].
  - intros i.
    replace (i + 4)%Z with (i + 1 + 1 + 1 + 1)%Z by lia.
    rewrite !slot_points_next, !map_map.
    rewrite <- (map_id (GenevaDriveCrossSection.cut_pin_slot_points i)) at 2.
    apply map_ext. intros p. apply quarter_turn_four.
  - unfold GenevaDriveCrossSection.cut_4_circles_points, quarter_turn.
    cbn [map fst snd].
    cbv [py_neg of_int PyNum_R].
    set (C := GenevaDriveCrossSection.CUT_OFFSET).
    replace (- - C)%R with C by lra. replace (- IZR 0)%R with (IZR 0) by (simpl; lra).
    apply (Permutation_cons_app [(IZR 0, C); (IZR 0, (- C)%R); (C, IZR 0)] [] (- C, IZR 0)%R).
    cbn [app].
    apply (Permutation_cons_app [(IZR 0, C); (IZR 0, (- C)%R)] [] (C, IZR 0)).
    apply Permutation_refl.
Qed.

(* ------------------------------------------------------------------------- *)
(** ** The whole drive, part by part *)

Section WholeDrive.
Context {T : Type} {N : PyNum T}.
Variable pen_y_of : @Journal.journal T -> T.

Let drive := build pen_y_of GenevaDrive.construct.
Let plate_assembly := component drive 0.
Let plate := component plate_assembly 0.
Let disk := component drive 1.
Let cam := component drive 2.

Lemma drive_classes :
  map the_class
      [ drive; plate_assembly; plate; component plate_assembly 1;
        component plate_assembly 2; disk; cam ] =
    [ Some "GenevaDrive"; Some "PlateWithBearingsAssembly";
      Some "RoundedRectangularPlateWithPins"; Some "BallBearing626D";
      Some "BallBearing626D"; Some "GenevaDiskAndHoles";
      Some "GenevaDriveCrossSection" ].
Proof. vm_compute. reflexivity. Qed.

Lemma drive_methods :
  map (@methods_called T)
      [ drive; plate_assembly; plate; component plate_assembly 1;
        component plate_assembly 2; disk; cam ] =
    [ [ "__new__"; "__init__"; "add_component"; "add_component"; "add_component" ];
      [ "__new__"; "__init__"; "__setattr__"; "add_component"; "add_component";
        "add_component" ];
      [ "__new__"; "__init__"; "add_operation"; "add_operation"; "add_operation";
        "add_operation"; "add_operation"; "paint" ];
      [ "__new__"; "add_operation"; "add_operation"; "paint" ];
      [ "__new__"; "add_operation"; "add_operation"; "paint" ];
      [ "__new__"; "__init__"; "add_operation"; "add_operation"; "add_operation";
        "add_operation"; "paint" ];
      [ "__new__"; "add_operation"; "add_operation"; "add_operation"; "add_operation";
        "add_operation"; "add_operation"; "add_operation"; "add_operation";
        "add_operation"; "add_operation"; "paint" ] ].
Proof. vm_compute. reflexivity. Qed.

Lemma drive_paints :
  map (@paints T)
      [ drive; plate_assembly; plate; component plate_assembly 1;
        component plate_assembly 2; disk; cam ] =
    [ []; []; ["plywood"]; ["grey"]; ["grey"]; ["beige"]; ["brown"] ].
Proof. vm_compute. reflexivity. Qed.

Lemma drive_plate_operations :
  the_operations plate =
  the_operations (component (build pen_y_of PlateWithBearingsAssembly.construct) 0).
Proof. vm_compute. reflexivity. Qed.

Lemma drive_plate_transforms :
  the_transforms plate_assembly =
  the_transforms (build pen_y_of PlateWithBearingsAssembly.construct).
Proof. vm_compute. reflexivity. Qed.

Lemma drive_bearing_operations i :
  i = 1%nat \/ i = 2%nat ->
  the_operations (component plate_assembly i) =
  the_operations (component (build pen_y_of PlateWithBearingsAssembly.construct) i).
Proof. intros [-> | ->]; vm_compute; reflexivity. Qed.

Lemma drive_disk_pocket :
  firstn 3 (pen_moves (operation_at disk 0)) =
    [ pen_to '0 (BEARING_HEIGHT - BEARING_PLATE_OFFSET);
      pen_by (BEARING_DIAMETER / '2) '0;
      pen_by '0 (- BEARING_HEIGHT + BEARING_PLATE_OFFSET) ].
Proof. vm_compute. reflexivity. Qed.

Lemma drive_disk_circle_cuts :
  circle_cuts (the_operations disk) =
    [ (Journal.at_xy '0 GenevaDiskAndHoles.CUT_OFFSET, GenevaDiskAndHoles.CUT_DIAMETER / '2) ].
Proof. vm_compute. reflexivity. Qed.

Lemma drive_cam_hole :
  operation_at cam 9 =
    Journal.extrusion (Journal.circle Journal.at_origin (BEARING_DIAMETER / '2))
                      (Height (GenevaDriveCrossSection.CROSS_WIDTH - '1)) (Some true).
Proof. vm_compute. reflexivity. Qed.

Lemma drive_cam_circle_cuts :
  circle_cuts (the_operations cam) =
    [ (Journal.at_xy '0 GenevaDriveCrossSection.CUT_OFFSET,
       GenevaDriveCrossSection.CUT_RADIUS);
      (Journal.at_xy '0 (- GenevaDriveCrossSection.CUT_OFFSET),
       GenevaDriveCrossSection.CUT_RADIUS);
      (Journal.at_xy GenevaDriveCrossSection.CUT_OFFSET '0,
       GenevaDriveCrossSection.CUT_RADIUS);
      (Journal.at_xy (- GenevaDriveCrossSection.CUT_OFFSET) '0,
       GenevaDriveCrossSection.CUT_RADIUS);
      (Journal.at_origin, BEARING_DIAMETER / '2) ].
Proof. vm_compute. reflexivity. Qed.
End WholeDrive.

(** X2.  The plate, its lips and the two wheels stack without gaps.  Each
    lip starts at PLATE_THICKNESS, the height of the plate's slab; the disk
    is translated along z by the end of the first lip and the cross-section
    by the end of the second lip (7 and 9). *)
Theorem wheels_rest_on_lips :
  (forall T (N : PyNum T) pen_y_of,
      let drive := build pen_y_of GenevaDrive.construct in
      let plate := component (component drive 0) 0 in
      let top_of i := option_map snd (start_end (operation_at plate i)) in
      let bottom_of i := option_map fst (start_end (operation_at plate i)) in
      bottom_of 1%nat = extrusion_height (operation_at plate 0) /\
      bottom_of 3%nat = extrusion_height (operation_at plate 0) /\
      map Some (z_moves (nth 1 (the_transforms drive) None)) = [top_of 1%nat] /\
      map Some (z_moves (nth 2 (the_transforms drive) None)) = [top_of 3%nat] /\
      extrusion_height (operation_at plate 0) = Some PLATE_THICKNESS /\
      top_of 1%nat = Some CIRCLES_PART_HEIGHT /\
      top_of 3%nat = Some CROSS_PART_HEIGHT) /\
  (@PLATE_THICKNESS R _ = 2%R /\ @CIRCLES_PART_HEIGHT R _ = 7%R /\
   @CROSS_PART_HEIGHT R _ = 9%R) /\
  (forall libm_cos libm_sin pen_y_of,
      let N := PyNum_py libm_cos libm_sin in
      let drive := build pen_y_of GenevaDrive.construct in
      let plate := component (component drive 0) 0 in
      map start_end [operation_at plate 1; operation_at plate 3] =
        [ Some (Some (PyInt 2), Some (PyInt 7)); Some (Some (PyInt 2), Some (PyInt 9)) ] /\
      map z_moves [nth 1 (the_transforms drive) None; nth 2 (the_transforms drive) None] =
        [ [Some (PyInt 7)]; [Some (PyInt 9)] ]).
Proof.
  split; [| split].
  - intros T N pen_y_of drive plate top_of bottom_of.
    subst bottom_of top_of plate drive. cbv beta. unfold operation_at.
    rewrite drive_plate_operations, plate_operations, drive_transforms.
    repeat split.
  - repeat split; in_R; lra.
  - intros libm_cos libm_sin pen_y_of N drive plate. vm_compute. split; reflexivity.
Qed.


Lemma sqrt2_lt : (R_sqrt.sqrt 2 < 1.5)%R.
Proof.
  replace 1.5%R with (R_sqrt.sqrt (1.5 * 1.5)) by (apply sqrt_square; lra).
  apply sqrt_lt_1; lra.
Qed.

Lemma slot_start_offset_R :
  @GenevaDriveCrossSection.SLOT_START_OFFSET R _ = (48 - 25 * R_sqrt.sqrt 2)%R.
Proof.
  unfold GenevaDriveCrossSection.SLOT_START_OFFSET. rewrite disk_diameter_R. in_R. lra.
Qed.



(** X6.  How each object is set up.  [Part.__init__] and
    [Assembly.__init__] run first on the plate, the disk and the two
    assemblies, but never on the two bearings nor on the cross-section, whose
    [__init__] does not call [super().__init__()].  Every part is painted
    exactly once, after its last operation (plywood, grey, grey, beige,
    brown); the assemblies are never painted. *)
Theorem parts_set_up_and_painted :
  forall T (N : PyNum T) pen_y_of,
    let drive := build pen_y_of GenevaDrive.construct in
    let plates := component drive 0 in
    let objects := [ drive; plates; component plates 0; component plates 1;
                     component plates 2; component drive 1; component drive 2 ] in
    let called := map (@methods_called T) objects in
    map the_class objects =
      [ Some "GenevaDrive"; Some "PlateWithBearingsAssembly";
        Some "RoundedRectangularPlateWithPins"; Some "BallBearing626D";
        Some "BallBearing626D"; Some "GenevaDiskAndHoles";
        Some "GenevaDriveCrossSection" ] /\
    map (fun ms => hd_error (tl ms)) called =
      [ Some "__init__"; Some "__init__"; Some "__init__"; Some "add_operation";
        Some "add_operation"; Some "__init__"; Some "add_operation" ] /\
    map (fun ms => count_occ string_dec ms "__init__") called =
      [1; 1; 1; 0; 0; 1; 0]%nat /\
    map (fun ms => count_occ string_dec ms "add_operation") called =
      [0; 0; 5; 2; 2; 4; 10]%nat /\
    map (fun ms => last ms "") called =
      [ "add_component"; "add_component"; "paint"; "paint"; "paint"; "paint"; "paint" ] /\
    map (@paints T) objects =
      [ []; []; ["plywood"]; ["grey"]; ["grey"]; ["beige"]; ["brown"] ].
Proof.
  intros T N pen_y_of drive plates objects called. subst called objects plates drive.
  rewrite drive_classes, drive_paints, drive_methods.
  repeat split.
Qed.

(* ------------------------------------------------------------------------- *)
(** ** What is created is used *)

(** X7.  Nothing the script creates is dropped or used twice.  Run against
    the library that hands out a fresh handle per call, the operations the
    script creates ([Extrusion], [Lathe]) are exactly the operations it adds
    to parts, in the same order and each once (23 of them); and the
    instances it creates after the GenevaDrive itself are exactly the
    components it adds to assemblies, each once. *)
Theorem created_operations_and_parts_are_added_once :
  forall T (N : PyNum T) (y : T),
    let tr := trace (fresh_handles y) GenevaDrive.construct 0%nat in
    created_operations tr = added_operations tr /\
    NoDup (added_operations tr) /\
    List.length (added_operations tr) = 23%nat /\
    option_map fst (outcome (fresh_handles y) GenevaDrive.construct 0%nat) =
      hd_error (created_instances tr) /\
    Permutation (tl (created_instances tr)) (added_components tr) /\
    NoDup (added_components tr) /\
    List.length (added_components tr) = 6%nat.
Proof.
  intros T N y tr. subst tr. vm_compute.
  split; [reflexivity |].
  split; [repeat (constructor; [simpl; intuition discriminate |]); constructor |].
  split; [reflexivity |].
  split; [reflexivity |].
  split; [apply (Permutation_cons_app [4; 31; 50]%nat [70; 120]%nat 2%nat); apply Permutation_refl |].
  split; [repeat (constructor; [simpl; intuition discriminate |]); constructor |].
  reflexivity.
Qed.

(** A script that feeds every read of [pen.y] to [line_to] does so in each
    of its runs. *)
Lemma run_feeds_line_to T obj St A (lib : library T obj St) (p : prog T obj A) :
  feeds_line_to p -> forall s, reads_fed_to_line_to (trace lib p s).
Proof.
  intros Hp. induction Hp as [a | c k _ IH | r k pen x k' Hk _ IH]; intros s.
  - exact I.
  - unfold trace. destruct (lib_call lib c s) as [[r s'] |] eqn:E.
    + rewrite (run_Call _ _ k _ E). simpl. apply IH.
    + simpl. rewrite E. exact I.
  - unfold trace. destruct (lib_read lib r s) as [[v s'] |] eqn:E.
    + rewrite (run_Read _ _ k _ E). unfold trace. rewrite (Hk v).
      destruct (lib_call lib (cLineTo (pen v) (x v) v) s') as [[r' s''] |] eqn:E'.
      * rewrite (run_Call _ _ (k' v) _ E'). simpl. split; [reflexivity | apply IH].
      * simpl. rewrite E'. simpl. auto.
    + simpl. rewrite E. exact I.
Qed.

Lemma construct_feeds_line_to T (N : PyNum T) obj :
  feeds_line_to (@GenevaDrive.construct T N obj).
Proof.
  cbv -[PIN_DISTANCE DISK_DIAMETER SLIDING_CIRCLE_DIAMETER CIRCLES_PART_HEIGHT
        CROSS_PART_HEIGHT of_int py_add py_sub py_mul py_truediv py_neg
        math_sqrt math_cos math_sin math_pi lit_0_5 lit_0_8].
  repeat first [ apply feeds_Ret
               | apply feeds_Call; intros ?
               | eapply feeds_Read; [intros ?; reflexivity | intros ? ?] ].
Qed.

Lemma run_reads_at_most T obj St A (lib : library T obj St) (p : prog T obj A) n :
  reads_pen_y n p -> forall s, (List.length (reads (trace lib p s)) <= n)%nat.
Proof.
  intros Hp. induction Hp as [a | n c k _ IH | n r k _ IH]; intros s.
  - apply Nat.le_refl.
  - unfold trace. destruct (lib_call lib c s) as [[r s'] |] eqn:E.
    + rewrite (run_Call _ _ k _ E). simpl. apply IH.
    + simpl. rewrite E. apply Nat.le_0_l.
  - unfold trace. destruct (lib_read lib r s) as [[v s'] |] eqn:E.
    + rewrite (run_Read _ _ k _ E). simpl. apply le_n_S, IH.
    + simpl. rewrite E. apply Nat.le_0_l.
Qed.

Lemma construct_reads_pen_y T (N : PyNum T) obj :
  reads_pen_y 3 (@GenevaDrive.construct T N obj).
Proof.
  cbv -[PIN_DISTANCE DISK_DIAMETER SLIDING_CIRCLE_DIAMETER CIRCLES_PART_HEIGHT
        CROSS_PART_HEIGHT of_int py_add py_sub py_mul py_truediv py_neg
        math_sqrt math_cos math_sin math_pi lit_0_5 lit_0_8].
  repeat first [ apply reads_Ret
               | apply reads_Call; intros ?
               | apply reads_Read; intros ? ].
Qed.

(** X8.  The only number the script takes from the library is [pen.y], and
    it never computes with it: in every run, against any library, each number
    read from [pen.y] is passed unchanged as the [y] of the next call, a
    [line_to] (so the three [line_to] calls of [create_disk] that follow a
    [line] keep the pencil at the height it has reached).  No run reads
    [pen.y] more than three times, and the recorded run, which returns, reads
    it three times among its 210 interactions. *)
Theorem pen_y_is_passed_to_line_to :
  (forall T (N : PyNum T) obj St (lib : library T obj St) s,
      reads_fed_to_line_to (trace lib GenevaDrive.construct s) /\
      (List.length (reads (trace lib GenevaDrive.construct s)) <= 3)%nat) /\
  (forall T (N : PyNum T) pen_y_of,
      let tr := trace (Journal.lib pen_y_of) GenevaDrive.construct [] in
      List.length (reads tr) = 3%nat /\
      List.length tr = 210%nat).
Proof.
  split.
  - intros T N obj St lib s. split.
    + apply run_feeds_line_to, construct_feeds_line_to.
    + apply run_reads_at_most, construct_reads_pen_y.
  - intros T N pen_y_of tr. subst tr. vm_compute. split; reflexivity.
Qed.

(* ------------------------------------------------------------------------- *)
(** ** Two constructions *)

(** Two runs of scripts that are alike up to [pen.y], against any two
    libraries in any two states: if both return they have the same outline. *)
Lemma alike_up_to_pen_y_runs T o1 o2 A1 A2 St1 St2
    (lib1 : library T o1 St1) (lib2 : library T o2 St2)
    (p1 : prog T o1 A1) (p2 : prog T o2 A2) :
  alike_up_to_pen_y p1 p2 ->
  forall s1 s2,
    outcome lib1 p1 s1 <> None ->
    outcome lib2 p2 s2 <> None ->
    outline (trace lib1 p1 s1) = outline (trace lib2 p2 s2).
Proof.
  intros Hp.
  induction Hp as [a1 a2 | c1 c2 k1 k2 Hc _ IH
                  | r1 r2 k1 k2 x pen1 pen2 k1' k2' H1 H2 _ IH]; intros s1 s2.
  - reflexivity.
  - unfold outcome, trace, outline.
    destruct (lib_call lib1 c1 s1) as [[x1 t1] |] eqn:E1;
      [| simpl; rewrite E1; intros N; elim N; reflexivity].
    destruct (lib_call lib2 c2 s2) as [[x2 t2] |] eqn:E2;
      [| simpl; rewrite E2; intros _ N; elim N; reflexivity].
    rewrite (run_Call _ _ k1 _ E1), (run_Call _ _ k2 _ E2). simpl.
    intros N1 N2. rewrite Hc. f_equal. apply IH; assumption.
  - unfold outcome, trace, outline.
    destruct (lib_read lib1 r1 s1) as [[v1 t1] |] eqn:E1;
      [| simpl; rewrite E1; intros N; elim N; reflexivity].
    destruct (lib_read lib2 r2 s2) as [[v2 t2] |] eqn:E2;
      [| simpl; rewrite E2; intros _ N; elim N; reflexivity].
    rewrite (run_Read _ _ k1 _ E1), (run_Read _ _ k2 _ E2).
    unfold outcome, trace. rewrite (H1 v1), (H2 v2).
    destruct (lib_call lib1 (cLineTo (pen1 v1) x v1) t1) as [[y1 u1] |] eqn:F1;
      [| simpl; rewrite F1; intros N; elim N; reflexivity].
    destruct (lib_call lib2 (cLineTo (pen2 v2) x v2) t2) as [[y2 u2] |] eqn:F2;
      [| simpl; rewrite F2; intros _ N; elim N; reflexivity].
    rewrite (run_Call _ _ (k1' v1) _ F1), (run_Call _ _ (k2' v2) _ F2). simpl.
    intros N1 N2. do 2 f_equal. apply IH; assumption.
Qed.

Lemma construct_alike_up_to_pen_y T (N : PyNum T) o1 o2 :
  alike_up_to_pen_y (GenevaDrive.construct (obj:=o1)) (GenevaDrive.construct (obj:=o2)).
Proof.
  cbv -[PIN_DISTANCE DISK_DIAMETER SLIDING_CIRCLE_DIAMETER CIRCLES_PART_HEIGHT
        CROSS_PART_HEIGHT of_int py_add py_sub py_mul py_truediv py_neg
        math_sqrt math_cos math_sin math_pi lit_0_5 lit_0_8].
  repeat first [ apply up_Ret
               | apply up_Call; [reflexivity | intros ? ?]
               | eapply up_Read;
                 [intros ?; reflexivity | intros ?; reflexivity | intros ? ? ? ?] ].
Qed.



